(** * Compact Mobile Mode: the controller and its page, embedded in Rocq

    The source is the TypeScript class [CompactMobileMode] together with the
    module-level singleton around it ([initCompactMobileMode],
    [getCompactMobileMode], [destroyCompactMobileMode]).

    The class mutates three things: its own fields, the document (the class
    list and the inline style of the root element, the [touch-action] style
    of interactive elements, the listeners of the document) and the stream of
    [compactModeChange] events dispatched on the document.  Every method is
    embedded as a function that passes this state explicitly.  The global
    [window] is an argument of the functions that read it; [None] stands for
    [typeof window === 'undefined'].

    A configuration argument has type [Partial<CompactModeConfig>].  Where
    each of its present keys holds a value it is a [PartialConfig], and the
    calls that take one stay within [State], whose configuration has the
    declared type.  The type also admits a key that holds [undefined]; the
    same calls are embedded a second time for any [ConfigObject], with an
    [Outcome] that tells a controller of the declared type from one with an
    [undefined] in its configuration and from a throw.

    JavaScript numbers are IEEE binary64 values, hence primitive floats.
    The touch feedback ([handleTouchEvent], [addTouchFeedback]) only touches
    the opacity of the touched element through a timer and is left out. *)

From Stdlib Require Import PrimFloat.
From stdpp Require Import gmap strings list.

Set Warnings "-inexact-float,-clear-no-such-hyp".

(** ** JavaScript values *)

Module JS.

Definition number : Type := float.

(** [ToBoolean] on a number: [0], [-0] and [NaN] are falsy. *)
Definition truthy (x : number) : bool :=
  negb (PrimFloat.eqb x 0%float) && PrimFloat.eqb x x.

(** [a || b] where [a] is an optional numeric argument ([None] is
    [undefined], which is falsy). *)
Definition or_else (a : option number) (b : number) : number :=
  match a with
  | Some x => if truthy x then x else b
  | None => b
  end.

Inductive Error : Type :=
| ReferenceError (name : string)
| PlainError (message : string)
| TypeError (property : string).     (* [x.property] where [x] is [undefined] *)

(** The outcome of a call: it returns or it throws. *)
Inductive completion (A : Type) : Type :=
| Normal (a : A)
| Throw (e : Error).
Arguments Normal {A} a.
Arguments Throw {A} e.

(** A throw skips the rest of the statements. *)
#[global] Instance completion_bind : MBind completion :=
  λ A B k c, match c with
             | Normal a => k a
             | Throw e => Throw e
             end.

#[global] Instance completion_ret : MRet completion := λ A a, Normal a.

(** [typeof x === 'undefined'] *)
Definition undefined {A} (x : option A) : bool :=
  match x with Some _ => false | None => true end.

(** A value that may be [undefined] ([None]) where a boolean or a number is
    expected: [!x] reads it through [ToBoolean], which makes [undefined]
    false, and [w <= x] through [ToNumber], which makes it [NaN]. *)
Definition ToBoolean (x : option bool) : bool := default false x.

Definition ToNumber (x : option number) : number := default PrimFloat.nan x.

End JS.
Import JS.

(** ** The page *)

Module DOM.

(** The strings the controller writes into a style declaration, kept
    symbolic: [NumberString n] is [n.toString()], [Px n] is the template
    [`${n}px`] and [Keyword s] a string literal.  Equal numbers give equal
    strings; the properties below compare such strings only for equal
    numbers or for [0.8] against [0.857], which print differently. *)
Inductive CssValue : Type :=
| NumberString (n : number)
| Px (n : number)
| Keyword (s : string).

Record Element : Type := mkElement {
  tagName : string;                 (* local name, lower case *)
  role : option string;             (* the role attribute *)
  classList : gset string;
  style : gmap string CssValue
}.

Definition classList_add (c : string) (e : Element) : Element :=
  let '(mkElement tag rl cl st) := e in mkElement tag rl ({[ c ]} ∪ cl) st.

Definition classList_remove (cs : list string) (e : Element) : Element :=
  let '(mkElement tag rl cl st) := e in mkElement tag rl (cl ∖ list_to_set cs) st.

Definition setProperty (k : string) (v : CssValue) (e : Element) : Element :=
  let '(mkElement tag rl cl st) := e in mkElement tag rl cl (<[ k := v ]> st).

Definition removeProperty (k : string) (e : Element) : Element :=
  let '(mkElement tag rl cl st) := e in mkElement tag rl cl (delete k st).

Definition getPropertyValue (k : string) (e : Element) : option CssValue :=
  style e !! k.

Definition contains (c : string) (e : Element) : bool :=
  bool_decide (c ∈ classList e).

(** The three kinds of selector the controller queries with. *)
Inductive Selector : Type :=
| ByTag (t : string)
| ByRole (r : string)
| ByClass (c : string).

Definition matches (sel : Selector) (e : Element) : bool :=
  match sel with
  | ByTag t => bool_decide (tagName e = t)
  | ByRole r => bool_decide (role e = Some r)
  | ByClass c => contains c e
  end.

Inductive Action : Type := enabled | disabled.

(** The [detail] of a [compactModeChange] event. *)
Record CompactModeChange : Type := mkDetail {
  action : Action;
  isCompact : bool;
  detail_scaleFactor : number
}.

(** A registered listener: the event type and the identity of the
    function object. *)
Record Listener : Type := mkListener {
  eventType : string;
  callback : nat;
  passive : bool
}.

Record MediaQueryList : Type := mkMediaQueryList {
  maxWidth : number;                (* (max-width: ...px) *)
  changeListeners : list nat
}.

Record ResizeObserver : Type := mkResizeObserver {
  observesRoot : bool
}.

Record Window : Type := mkWindow {
  innerWidth : number;
  hasResizeObserver : bool          (* 'ResizeObserver' in window *)
}.

Record Page : Type := mkPage {
  documentElement : Element;
  descendants : list Element;       (* the other elements of the document *)
  documentListeners : list Listener;
  dispatched : list CompactModeChange;  (* oldest first *)
  functionsCreated : nat            (* identity of the next function object *)
}.

End DOM.
Import DOM.

(** ** The controller object *)

Record CompactModeConfig : Type := mkConfig {
  autoEnable : bool;
  breakpoint : number;
  scaleFactor : number;
  touchMinSize : number;
  enablePassiveListeners : bool
}.

(** An argument of type [Partial<CompactModeConfig>] each of whose present
    keys holds a value of its declared type: [None] is an absent key.  The
    type also admits a key that is present with the value [undefined]; such
    arguments are the [ConfigObject]s below. *)
Record PartialConfig : Type := mkPartial {
  p_autoEnable : option bool;
  p_breakpoint : option number;
  p_scaleFactor : option number;
  p_touchMinSize : option number;
  p_enablePassiveListeners : option bool
}.

Definition noConfig : PartialConfig := mkPartial None None None None None.

(** [{ ...c, ...p }] for such an argument; [spread_object] is the spread of
    any argument. *)
Definition spread (c : CompactModeConfig) (p : PartialConfig) : CompactModeConfig :=
  mkConfig (default (autoEnable c) (p_autoEnable p))
           (default (breakpoint c) (p_breakpoint p))
           (default (scaleFactor c) (p_scaleFactor p))
           (default (touchMinSize c) (p_touchMinSize p))
           (default (enablePassiveListeners c) (p_enablePassiveListeners p)).

Definition defaultConfig : CompactModeConfig :=
  mkConfig true 480%float 0.857%float 40%float true.

Record CompactMobileMode : Type := mkController {
  config : CompactModeConfig;
  isCompactMode : bool;
  isManualMode : bool;
  resizeObserver : option ResizeObserver;
  mediaQuery : option MediaQueryList
}.

(** The controller together with the page it acts on. *)
Record State : Type := mkState {
  this : CompactMobileMode;
  page : Page
}.

Section Updates.

Definition with_config (c : CompactModeConfig) (s : State) : State :=
  let '(mkState (mkController _ cm mm ro mq) p) := s in
  mkState (mkController c cm mm ro mq) p.

Definition with_isCompactMode (b : bool) (s : State) : State :=
  let '(mkState (mkController c _ mm ro mq) p) := s in
  mkState (mkController c b mm ro mq) p.

Definition with_isManualMode (b : bool) (s : State) : State :=
  let '(mkState (mkController c cm _ ro mq) p) := s in
  mkState (mkController c cm b ro mq) p.

Definition with_resizeObserver (r : option ResizeObserver) (s : State) : State :=
  let '(mkState (mkController c cm mm _ mq) p) := s in
  mkState (mkController c cm mm r mq) p.

Definition with_mediaQuery (m : option MediaQueryList) (s : State) : State :=
  let '(mkState (mkController c cm mm ro _) p) := s in
  mkState (mkController c cm mm ro m) p.

(** An update of [document.documentElement]. *)
Definition on_root (f : Element → Element) (s : State) : State :=
  let '(mkState t (mkPage r ds ls ev fn)) := s in
  mkState t (mkPage (f r) ds ls ev fn).

(** An update of every element of the document, the root included. *)
Definition on_all (f : Element → Element) (s : State) : State :=
  let '(mkState t (mkPage r ds ls ev fn)) := s in
  mkState t (mkPage (f r) (f <$> ds) ls ev fn).

(** [document.addEventListener(type, f, { passive, capture: false })] *)
Definition document_addEventListener (l : Listener) (s : State) : State :=
  let '(mkState t (mkPage r ds ls ev fn)) := s in
  mkState t (mkPage r ds (ls ++ [l]) ev fn).

(** [document.dispatchEvent(new CustomEvent('compactModeChange', { detail }))] *)
Definition document_dispatchEvent (d : CompactModeChange) (s : State) : State :=
  let '(mkState t (mkPage r ds ls ev fn)) := s in
  mkState t (mkPage r ds ls (ev ++ [d]) fn).

(** [f.bind(this)] makes a new function object each time it is evaluated;
    the result is its identity and the state in which it exists. *)
Definition bind_this (s : State) : nat * State :=
  let '(mkState t (mkPage r ds ls ev fn)) := s in
  (fn, mkState t (mkPage r ds ls ev (S fn))).

End Updates.

(** [removeEventListener] drops the listener whose callback is the very
    function object passed in. *)
Definition mq_removeEventListener (f : nat) (m : MediaQueryList) : MediaQueryList :=
  let '(mkMediaQueryList w ls) := m in
  mkMediaQueryList w (filter (λ g, g ≠ f) ls).

Definition mq_addEventListener (f : nat) (m : MediaQueryList) : MediaQueryList :=
  let '(mkMediaQueryList w ls) := m in mkMediaQueryList w (ls ++ [f]).

(** ** The methods of [CompactMobileMode] *)

Definition scaleFactorProperty : string := "--compact-scale-factor".
Definition fontBaseProperty : string := "--compact-font-base".
Definition touchMinSizeProperty : string := "--compact-touch-min-size".
Definition compactClass : string := "compact-mode".
Definition smallerClass : string := "compact-mode-smaller".

Definition setupMediaQuery (window : option Window) (s : State) : State :=
  match window with
  | Some _ =>
      let s := with_mediaQuery
                 (Some (mkMediaQueryList (breakpoint (config (this s))) [])) s in
      let '(f, s) := bind_this s in
      with_mediaQuery (mq_addEventListener f <$> mediaQuery (this s)) s
  | None => s
  end.

Definition setupResizeObserver (window : option Window) (s : State) : State :=
  match window with
  | Some w =>
      if hasResizeObserver w
      then with_resizeObserver (Some (mkResizeObserver true)) s
      else s
  | None => s
  end.

Definition interactiveSelectors : list Selector :=
  [ ByTag "button"; ByTag "a"; ByTag "input"; ByTag "select"; ByTag "textarea";
    ByRole "button"; ByRole "tab"; ByRole "menuitem";
    ByClass "touch-target"; ByClass "touch-optimized" ].

(** [element.style.touchAction = 'manipulation'] on the elements that
    [querySelectorAll(selector)] returns. *)
Definition setTouchAction (sel : Selector) (e : Element) : Element :=
  if matches sel e then setProperty "touch-action" (Keyword "manipulation") e else e.

Definition addTouchActionToElements (s : State) : State :=
  foldl (λ s sel, on_all (setTouchAction sel) s) s interactiveSelectors.

Definition touchEvents : list string :=
  [ "touchstart"; "touchmove"; "touchend"; "touchcancel" ].

Definition setupPassiveListeners (window : option Window) (s : State) : State :=
  if negb (enablePassiveListeners (config (this s))) || undefined window
  then s
  else
    let s := foldl (λ s ty,
                      let '(f, s) := bind_this s in
                      document_addEventListener (mkListener ty f true) s)
                   s touchEvents in
    addTouchActionToElements s.

(** [updateCSSProperties(scaleFactor?, fontSize?)] *)
Definition updateCSSProperties (scaleFactorArg fontSize : option number)
    (s : State) : State :=
  let scale := or_else scaleFactorArg (scaleFactor (config (this s))) in
  let font := or_else fontSize 12%float in
  let s := on_root (setProperty scaleFactorProperty (NumberString scale)) s in
  let s := on_root (setProperty fontBaseProperty (Px font)) s in
  on_root (setProperty touchMinSizeProperty
             (Px (touchMinSize (config (this s))))) s.

Definition resetCSSProperties (s : State) : State :=
  let s := on_root (removeProperty scaleFactorProperty) s in
  let s := on_root (removeProperty fontBaseProperty) s in
  on_root (removeProperty touchMinSizeProperty) s.

Definition dispatchCompactModeEvent (a : Action) (s : State) : State :=
  document_dispatchEvent
    (mkDetail a (isCompactMode (this s)) (scaleFactor (config (this s)))) s.

Definition enableCompactMode (s : State) : State :=
  if isCompactMode (this s) then s
  else
    let s := with_isCompactMode true s in
    let s := on_root (classList_add compactClass) s in
    let s := updateCSSProperties None None s in
    let s := addTouchActionToElements s in
    dispatchCompactModeEvent enabled s.

Definition disableCompactMode (s : State) : State :=
  if negb (isCompactMode (this s)) then s
  else
    let s := with_isCompactMode false s in
    let s := on_root (classList_remove [compactClass; smallerClass]) s in
    let s := resetCSSProperties s in
    dispatchCompactModeEvent disabled s.

Definition toggleCompactMode (s : State) : State :=
  let s := with_isManualMode true s in
  if isCompactMode (this s) then disableCompactMode s else enableCompactMode s.

Inductive Level : Type := normal | smaller.

Definition setCompactModeLevel (level : Level) (s : State) : State :=
  let s := with_isManualMode true s in
  match level with
  | smaller =>
      let s := on_root (classList_add smallerClass) s in
      updateCSSProperties (Some 0.8%float) (Some 11%float) s
  | normal =>
      let s := on_root (classList_remove [smallerClass]) s in
      updateCSSProperties None None s
  end.

(** Reading [window.innerWidth] where no [window] exists is a
    [ReferenceError]; the early return comes first. *)
Definition autoDetectAndApply (window : option Window) (s : State)
    : completion State :=
  if negb (autoEnable (config (this s))) || isManualMode (this s) then Normal s
  else
    match window with
    | None => Throw (ReferenceError "window")
    | Some w =>
        let shouldEnable :=
          PrimFloat.leb (innerWidth w) (breakpoint (config (this s))) in
        if shouldEnable && negb (isCompactMode (this s))
        then Normal (enableCompactMode s)
        else if negb shouldEnable && isCompactMode (this s)
        then Normal (disableCompactMode s)
        else Normal s
    end.

Definition handleMediaQueryChange (window : option Window) (s : State)
    : completion State :=
  if negb (isManualMode (this s)) then autoDetectAndApply window s else Normal s.

Record ResizeObserverEntry : Type := mkEntry {
  targetIsDocumentElement : bool      (* entry.target === document.documentElement *)
}.

(** The callback given to [new ResizeObserver] in [setupResizeObserver]. *)
Definition resizeObserverCallback (window : option Window)
    (entries : list ResizeObserverEntry) (s : State) : completion State :=
  foldl (λ (acc : completion State) entry,
           s ← acc;
           if targetIsDocumentElement entry
           then autoDetectAndApply window s
           else Normal s)
        (Normal s) entries.

Record Status : Type := mkStatus {
  status_isCompact : bool;
  status_isManual : bool;
  status_scaleFactor : number
}.

Definition getStatus (s : State) : Status :=
  mkStatus (isCompactMode (this s)) (isManualMode (this s))
           (scaleFactor (config (this s))).

(** [this.mediaQuery.removeEventListener('change',
    this.handleMediaQueryChange.bind(this))], as [updateConfig] and
    [destroy] both write it. *)
Definition removeMediaQueryListener (s : State) : State :=
  match mediaQuery (this s) with
  | Some m =>
      let '(f, s) := bind_this s in
      with_mediaQuery (Some (mq_removeEventListener f m)) s
  | None => s
  end.

Definition updateConfig (window : option Window) (newConfig : PartialConfig)
    (s : State) : State :=
  let s := with_config (spread (config (this s)) newConfig) s in
  let s := removeMediaQueryListener s in
  let s := setupMediaQuery window s in
  if isCompactMode (this s) then updateCSSProperties None None s else s.

Definition destroy (s : State) : State :=
  let s := removeMediaQueryListener s in
  let s := match resizeObserver (this s) with
           | Some _ => with_resizeObserver (Some (mkResizeObserver false)) s
           | None => s
           end in
  disableCompactMode s.

Definition init (window : option Window) (s : State) : completion State :=
  let s := setupMediaQuery window s in
  let s := setupResizeObserver window s in
  let s := setupPassiveListeners window s in
  autoDetectAndApply window s.

(** [new CompactMobileMode(config)] on page [p], for a [config] whose
    present keys hold values; [noConfig] is the omitted argument. *)
Definition new_CompactMobileMode (window : option Window)
    (cfg : PartialConfig) (p : Page) : completion State :=
  init window
    (mkState (mkController (spread defaultConfig cfg) false false None None) p).

(** ** Configuration objects that hold [undefined]

    [Partial<CompactModeConfig>] makes every key optional, and an optional
    key may be written with the value [undefined]:
    [{ scaleFactor: undefined }] has that type.  The object spread copies
    such a key as it copies any other, so [this.config] can come to hold
    [undefined] where its declared type has a number or a boolean. *)

(** One key of an object. *)
Inductive Key (A : Type) : Type :=
| KeyAbsent                  (* the object has no such key *)
| KeyUndefined               (* the key is there and holds [undefined] *)
| KeyValue (a : A).
Arguments KeyAbsent {A}.
Arguments KeyUndefined {A}.
Arguments KeyValue {A} a.

(** Any argument of type [Partial<CompactModeConfig>]. *)
Record ConfigObject : Type := mkObject {
  o_autoEnable : Key bool;
  o_breakpoint : Key number;
  o_scaleFactor : Key number;
  o_touchMinSize : Key number;
  o_enablePassiveListeners : Key bool
}.

(** The omitted argument: spreading [undefined] copies nothing. *)
Definition noObject : ConfigObject :=
  mkObject KeyAbsent KeyAbsent KeyAbsent KeyAbsent KeyAbsent.

Definition key_of {A} (x : option A) : Key A :=
  match x with Some a => KeyValue a | None => KeyAbsent end.

(** A [PartialConfig] is the object whose present keys hold its values. *)
Definition object_of (p : PartialConfig) : ConfigObject :=
  mkObject (key_of (p_autoEnable p)) (key_of (p_breakpoint p))
           (key_of (p_scaleFactor p)) (key_of (p_touchMinSize p))
           (key_of (p_enablePassiveListeners p)).

(** What [this.config] holds after a spread; [None] is [undefined]. *)
Record StoredConfig : Type := mkStored {
  stored_autoEnable : option bool;
  stored_breakpoint : option number;
  stored_scaleFactor : option number;
  stored_touchMinSize : option number;
  stored_enablePassiveListeners : option bool
}.

(** A key of [{ ...c, ...o }]: a key present in [o] wins, whatever it
    holds. *)
Definition spread_key {A} (old : A) (k : Key A) : option A :=
  match k with
  | KeyAbsent => Some old
  | KeyUndefined => None
  | KeyValue a => Some a
  end.

(** [{ ...c, ...o }] *)
Definition spread_object (c : CompactModeConfig) (o : ConfigObject)
    : StoredConfig :=
  mkStored (spread_key (autoEnable c) (o_autoEnable o))
           (spread_key (breakpoint c) (o_breakpoint o))
           (spread_key (scaleFactor c) (o_scaleFactor o))
           (spread_key (touchMinSize c) (o_touchMinSize o))
           (spread_key (enablePassiveListeners c) (o_enablePassiveListeners o)).

(** The stored object as a [CompactModeConfig], which it is exactly if none
    of its keys holds [undefined]. *)
Definition declared (r : StoredConfig) : option CompactModeConfig :=
  match stored_autoEnable r, stored_breakpoint r, stored_scaleFactor r,
        stored_touchMinSize r, stored_enablePassiveListeners r with
  | Some a, Some b, Some f, Some t, Some l => Some (mkConfig a b f t l)
  | _, _, _, _, _ => None
  end.

(** A stored object with an [undefined] in it, as the statements that run
    before [scaleFactor] and [touchMinSize] are used read it:
    [!this.config.autoEnable] and [!this.config.enablePassiveListeners]
    through [ToBoolean], [window.innerWidth <= this.config.breakpoint]
    through [ToNumber].  The text that the template literal of
    [setupMediaQuery] makes of the breakpoint stays inside the media query
    list, of which the model keeps the listeners.  The other two fields are
    not read through this record. *)
Definition as_read (r : StoredConfig) : CompactModeConfig :=
  mkConfig (ToBoolean (stored_autoEnable r))
           (ToNumber (stored_breakpoint r))
           (ToNumber (stored_scaleFactor r))
           (ToNumber (stored_touchMinSize r))
           (ToBoolean (stored_enablePassiveListeners r)).

(** What a call that stores a configuration object does.  A [State] holds
    a configuration of the declared type; a call that returns with an
    [undefined] stored in [this.config] leaves a controller that no [State]
    describes, which is all the model says of it. *)
Inductive Outcome : Type :=
| Returns (s : State)
| ReturnsUndeclared
| Throws (e : Error) (p : Page).      (* [p] is the page at the throw *)

(** [scale.toString()] in [updateCSSProperties()], called without
    arguments: [scale] is [undefined || this.config.scaleFactor], and
    reading a property of [undefined] is a [TypeError].  If it does not
    throw, the call goes on to return: no later statement of
    [updateCSSProperties], [addTouchActionToElements] or
    [dispatchCompactModeEvent] can throw, [`${undefined}px`] being the
    string [undefinedpx]. *)
Definition updateCSSProperties_stored (r : StoredConfig) (s : State)
    : Outcome :=
  match stored_scaleFactor r with
  | None => Throws (TypeError "toString") (page s)
  | Some _ => ReturnsUndeclared
  end.

(** [new CompactMobileMode(config)] for any argument.  With no [undefined]
    stored, the statements of [init] run on a [State]; a throw of
    [autoDetectAndApply] comes before it has changed anything.  Otherwise
    they run on the stored object as read: the three set-ups, then
    [autoDetectAndApply], which returns early, or throws for want of a
    [window], or compares the width; on a fresh controller only
    [enableCompactMode] can follow, which sets the flag and the class before
    it comes to [updateCSSProperties]. *)
Definition new_CompactMobileMode_object (window : option Window)
    (config : ConfigObject) (p : Page) : Outcome :=
  let r := spread_object defaultConfig config in
  match declared r with
  | Some c =>
      let s := mkState (mkController c false false None None) p in
      let s := setupMediaQuery window s in
      let s := setupResizeObserver window s in
      let s := setupPassiveListeners window s in
      match autoDetectAndApply window s with
      | Normal s => Returns s
      | Throw e => Throws e (page s)
      end
  | None =>
      let c := as_read r in
      let s := mkState (mkController c false false None None) p in
      let s := setupMediaQuery window s in
      let s := setupResizeObserver window s in
      let s := setupPassiveListeners window s in
      if negb (autoEnable c) then ReturnsUndeclared
      else
        match window with
        | None => Throws (ReferenceError "window") (page s)
        | Some w =>
            if PrimFloat.leb (innerWidth w) (breakpoint c)
            then
              let s := with_isCompactMode true s in
              let s := on_root (classList_add compactClass) s in
              updateCSSProperties_stored r s
            else ReturnsUndeclared
        end
  end.

(** [updateConfig(newConfig)] for any argument. *)
Definition updateConfig_object (window : option Window)
    (newConfig : ConfigObject) (s : State) : Outcome :=
  let r := spread_object (config (this s)) newConfig in
  match declared r with
  | Some c =>
      let s := with_config c s in
      let s := removeMediaQueryListener s in
      let s := setupMediaQuery window s in
      Returns (if isCompactMode (this s)
               then updateCSSProperties None None s else s)
  | None =>
      let s := with_config (as_read r) s in
      let s := removeMediaQueryListener s in
      let s := setupMediaQuery window s in
      if isCompactMode (this s)
      then updateCSSProperties_stored r s
      else ReturnsUndeclared
  end.

(** ** The module-level singleton *)

Record ModuleState : Type := mkModule {
  compactMobileMode : option CompactMobileMode;   (* [null] is [None] *)
  m_page : Page
}.

(** What [initCompactMobileMode(config)] does, with the module state it
    leaves. *)
Inductive Initialisation : Type :=
| InitReturns (c : CompactMobileMode) (m : ModuleState)
| InitReturnsUndeclared     (* returns a controller of which [this.config]
                               holds an [undefined]; it is the instance *)
| InitThrows (e : Error) (m : ModuleState).

Definition initCompactMobileMode (window : option Window)
    (config : ConfigObject) (m : ModuleState) : Initialisation :=
  if undefined window
  then InitThrows
         (PlainError
            "CompactMobileMode can only be initialized in browser environment")
         m
  else
    match compactMobileMode m with
    | Some c => InitReturns c m
    | None =>
        (* the assignment to [compactMobileMode] is skipped by a throw *)
        match new_CompactMobileMode_object window config (m_page m) with
        | Returns s => InitReturns (this s) (mkModule (Some (this s)) (page s))
        | ReturnsUndeclared => InitReturnsUndeclared
        | Throws e p => InitThrows e (mkModule None p)
        end
    end.

Definition getCompactMobileMode (m : ModuleState) : option CompactMobileMode :=
  compactMobileMode m.

Definition destroyCompactMobileMode (m : ModuleState) : ModuleState :=
  match compactMobileMode m with
  | Some c => mkModule None (page (destroy (mkState c (m_page m))))
  | None => m
  end.

(** ** Runs of the controller *)

(** The public operations, and the two callbacks through which the browser
    re-evaluates the width; each of the latter runs with the [window] of the
    moment. *)
Inductive Op : Type :=
| EnableCompactMode
| DisableCompactMode
| ToggleCompactMode
| SetCompactModeLevel (level : Level)
| AutoDetectAndApply (w : Window)
| MediaQueryChange (w : Window)
| Resize (w : Window) (entries : list ResizeObserverEntry)
| Destroy.

Definition step (op : Op) (s : State) : completion State :=
  match op with
  | EnableCompactMode => Normal (enableCompactMode s)
  | DisableCompactMode => Normal (disableCompactMode s)
  | ToggleCompactMode => Normal (toggleCompactMode s)
  | SetCompactModeLevel level => Normal (setCompactModeLevel level s)
  | AutoDetectAndApply w => autoDetectAndApply (Some w) s
  | MediaQueryChange w => handleMediaQueryChange (Some w) s
  | Resize w entries => resizeObserverCallback (Some w) entries s
  | Destroy => Normal (destroy s)
  end.

Definition run (ops : list Op) (s : State) : completion State :=
  foldl (λ (acc : completion State) op, s ← acc; step op s) (Normal s) ops.

Definition root (s : State) : Element := documentElement (page s).

(** A page on which no controller has acted yet. *)
Definition fresh (p : Page) : Prop :=
  contains compactClass (documentElement p) = false ∧
  contains smallerClass (documentElement p) = false ∧
  getPropertyValue scaleFactorProperty (documentElement p) = None ∧
  getPropertyValue fontBaseProperty (documentElement p) = None ∧
  getPropertyValue touchMinSizeProperty (documentElement p) = None ∧
  dispatched p = [].

(** The states of a controller constructed in a browser on a fresh page and
    then driven by any sequence of operations. *)
Inductive reachable : State → Prop :=
| reachable_new w cfg p s :
    fresh p →
    new_CompactMobileMode (Some w) cfg p = Normal s →
    reachable s
| reachable_step op s s' :
    reachable s →
    step op s = Normal s' →
    reachable s'.

(** A concrete page: an [html] root with one button. *)
Definition emptyPage : Page :=
  mkPage (mkElement "html" None ∅ ∅) [mkElement "button" None ∅ ∅] [] [] 0.

Definition phone : Window := mkWindow 375%float true.
Definition desktop : Window := mkWindow 800%float true.

(** ** Concrete states *)

(** A controller that has not gone compact, on the concrete page. *)
Definition idle : State :=
  mkState (mkController defaultConfig false false None None) emptyPage.

(** The controller that [new CompactMobileMode()] builds on [emptyPage] at
    width 375: it goes compact at once. *)
Definition onPhone : State :=
  enableCompactMode
    (setupPassiveListeners (Some phone)
       (setupResizeObserver (Some phone)
          (setupMediaQuery (Some phone)
             (mkState (mkController defaultConfig false false None None)
                      emptyPage)))).

(** The same at width 800: it stays as it is. *)
Definition onDesktop : State :=
  setupPassiveListeners (Some desktop)
    (setupResizeObserver (Some desktop)
       (setupMediaQuery (Some desktop)
          (mkState (mkController defaultConfig false false None None)
                   emptyPage))).

(** ** Predicates used in the proofs *)

(** [addTouchActionToElements] writes nothing but [touch-action] styles. *)
Definition touch_frame (s s' : State) : Prop :=
  this s' = this s ∧
  classList (root s') = classList (root s) ∧
  (∀ k, k ≠ "touch-action" →
        getPropertyValue k (root s') = getPropertyValue k (root s)) ∧
  dispatched (page s') = dispatched (page s).

(** Two states that agree on the configuration, the flags, the root element
    and the dispatched events; the listeners and observers may differ. *)
Definition same_view (s s' : State) : Prop :=
  config (this s') = config (this s) ∧
  isCompactMode (this s') = isCompactMode (this s) ∧
  isManualMode (this s') = isManualMode (this s) ∧
  root s' = root s ∧
  dispatched (page s') = dispatched (page s).

(** The invariant of a run. *)
Record consistent (s : State) : Prop := mkConsistent {
  cons_class :
    isCompactMode (this s) = true ↔ compactClass ∈ classList (root s);
  cons_scale :
    isCompactMode (this s) = true →
    getPropertyValue scaleFactorProperty (root s) =
      Some (NumberString (scaleFactor (config (this s)))) ∨
    (isManualMode (this s) = true ∧
     smallerClass ∈ classList (root s) ∧
     getPropertyValue scaleFactorProperty (root s) =
       Some (NumberString 0.8%float));
  cons_auto :
    isManualMode (this s) = false →
    isCompactMode (this s) = false →
    getPropertyValue scaleFactorProperty (root s) = None ∧
    getPropertyValue fontBaseProperty (root s) = None ∧
    getPropertyValue touchMinSizeProperty (root s) = None ∧
    smallerClass ∉ classList (root s);
  cons_events :
    Forall (λ d, detail_scaleFactor d = scaleFactor (config (this s)))
           (dispatched (page s))
}.

(** ** Calls into the module *)

(** The module states of an environment whose [window] is [window]: the
    instance starts as [null], and every call of [initCompactMobileMode],
    with any argument, or of [destroyCompactMobileMode] leads from one to
    the next.  The initialisation at load time, in a browser, is a call
    with [noObject]. *)
Inductive module_reachable (window : option Window) : ModuleState → Prop :=
| module_loaded p : module_reachable window (mkModule None p)
| module_init_returns config m c m' :
    module_reachable window m →
    initCompactMobileMode window config m = InitReturns c m' →
    module_reachable window m'
| module_init_throws config m e m' :
    module_reachable window m →
    initCompactMobileMode window config m = InitThrows e m' →
    module_reachable window m'
| module_destroyed m :
    module_reachable window m →
    module_reachable window (destroyCompactMobileMode m).

(** ** Further code of the repository *)

(** [isInteractiveElement(element)], which decides whether a touch gives
    visual feedback.  For an HTML element [element.tagName.toLowerCase()] is
    its local name, the [tagName] of the model; [getAttribute('role') || '']
    turns a missing role into the empty string. *)
Definition interactiveTags : list string :=
  [ "button"; "a"; "input"; "select"; "textarea" ].

Definition interactiveRoles : list string :=
  [ "button"; "link"; "tab"; "menuitem"; "option" ].

Definition includes (l : list string) (x : string) : bool :=
  bool_decide (x ∈ l).

Definition isInteractiveElement (e : Element) : bool :=
  includes interactiveTags (tagName e) ||
  includes interactiveRoles (default "" (role e)) ||
  contains "touch-target" e ||
  contains "touch-optimized" e.

(** *** The React hook [useCompactMobileMode]

    The hook keeps four pieces of component state.  Its effect runs once,
    after the first render: it reads the singleton and, if there is one,
    copies its status; it also subscribes [handleCompactModeChange] to the
    [compactModeChange] events of the document, which the controller
    dispatches synchronously. *)
Record Hook : Type := mkHook {
  hook_compactMode : bool;            (* the [compactMode] state is not [null] *)
  hook_isCompactMode : bool;
  hook_isManualMode : bool;
  hook_scaleFactor : number
}.

(** The initial values given to [useState]. *)
Definition useState_initial : Hook := mkHook false false false 1%float.

(** The body of the effect up to the subscription; [mode] is what
    [getCompactMobileMode()] returns, together with the page. *)
Definition useEffect_mount (mode : option State) (h : Hook) : Hook :=
  match mode with
  | Some s =>
      let status := getStatus s in
      mkHook true (status_isCompact status) (status_isManual status)
             (status_scaleFactor status)
  | None => h
  end.

Definition handleCompactModeChange (d : CompactModeChange) (h : Hook) : Hook :=
  mkHook (hook_compactMode h) (isCompact d) (hook_isManualMode h)
         (detail_scaleFactor d).

(** The listener applied to the events dispatched since it subscribed. *)
Definition deliver (h : Hook) (events : list CompactModeChange) : Hook :=
  foldl (λ h d, handleCompactModeChange d h) h events.

(** The callbacks the hook hands out call the controller only if the hook
    holds one. *)
Definition hook_call (f : State → State) (h : Hook) (s : State) : State :=
  if hook_compactMode h then f s else s.

(** The [status] object the hook returns to the view. *)
Definition hook_status (h : Hook) : Status :=
  mkStatus (hook_isCompactMode h) (hook_isManualMode h) (hook_scaleFactor h).

(** The tests with which the toggle view highlights its two level buttons:
    [status.scaleFactor === 0.857] and [status.scaleFactor === 0.8]. *)
Definition normalHighlighted (st : Status) : bool :=
  PrimFloat.eqb (status_scaleFactor st) 0.857%float.

Definition smallerHighlighted (st : Status) : bool :=
  PrimFloat.eqb (status_scaleFactor st) 0.8%float.

(** *** Predicates on event streams and listeners *)

(** Each event announces the state it carries ([enabled] with [isCompact]
    set, [disabled] with it clear) and that state is the negation of the one
    before, starting from [b]. *)
Fixpoint alternates (b : bool) (events : list CompactModeChange) : bool :=
  match events with
  | [] => true
  | d :: events =>
      bool_decide (isCompact d = negb b) &&
      match action d with enabled => isCompact d | disabled => negb (isCompact d) end &&
      alternates (isCompact d) events
  end.

(** The state carried by the last event, [b] if there is none. *)
Definition last_isCompact (b : bool) (events : list CompactModeChange) : bool :=
  foldl (λ _ d, isCompact d) b events.

(** The event that announces the compact state of [s']. *)
Definition announcement (s' : State) : CompactModeChange :=
  mkDetail (if isCompactMode (this s') then enabled else disabled)
           (isCompactMode (this s')) (scaleFactor (config (this s'))).

(** What a transition from [s] to [s'] dispatches. *)
Definition emits (s s' : State) (events : list CompactModeChange) : Prop :=
  dispatched (page s') = dispatched (page s) ++ events ∧
  config (this s') = config (this s) ∧
  alternates (isCompactMode (this s)) events = true ∧
  last_isCompact (isCompactMode (this s)) events = isCompactMode (this s') ∧
  Forall (λ d, detail_scaleFactor d = scaleFactor (config (this s))) events.

(** The controller's media query carries one change listener, a function
    that exists, for the configured breakpoint. *)
Definition one_listener (s : State) : Prop :=
  ∃ f, mediaQuery (this s) =
         Some (mkMediaQueryList (breakpoint (config (this s))) [f]) ∧
       f < functionsCreated (page s).

(** The four listeners of [setupPassiveListeners], the first being function
    number [fn]. *)
Definition touchListeners (fn : nat) : list Listener :=
  [ mkListener "touchstart" fn true; mkListener "touchmove" (S fn) true;
    mkListener "touchend" (S (S fn)) true;
    mkListener "touchcancel" (S (S (S fn))) true ].

(** The listeners, observers and function objects: what the operations on
    the compact state leave alone. *)
Definition bookkeeping (s : State)
    : option MediaQueryList * option ResizeObserver * list Listener * nat :=
  (mediaQuery (this s), resizeObserver (this s),
   documentListeners (page s), functionsCreated (page s)).

(** An element after [addTouchActionToElements]: marked if some selector
    matches it. *)
Definition touched (e : Element) : Element :=
  if existsb (λ sel, matches sel e) interactiveSelectors
  then setProperty "touch-action" (Keyword "manipulation") e
  else e.

(** *** The toggle view

    Of the component only the conditions under which it shows and
    highlights the level buttons are modelled.  The [switch] variant shows
    them if [isManualMode], the [button] variant if
    [isManualMode && isCompactMode]; the [icon] variant has none. *)
Inductive Variant : Type := button | switch | icon.

Definition levelButtonsShown (variant : Variant) (h : Hook) : bool :=
  match variant with
  | switch => hook_isManualMode h
  | icon => false
  | button => hook_isManualMode h && hook_isCompactMode h
  end.

(** *** Mobile optimization utilities

    What these functions read of the browser: the size of the window, the
    outcome of the regular expression test on [navigator.userAgent] and
    whether [window] has an [ontouchstart] key. *)
Record Device : Type := mkDevice {
  device_innerWidth : number;
  device_innerHeight : number;
  userAgentIsMobile : bool;
  hasOnTouchStart : bool
}.

Definition isMobile (window : option Device) : bool :=
  match window with
  | None => false
  | Some d =>
      userAgentIsMobile d ||
      PrimFloat.leb (device_innerWidth d) 768%float ||
      hasOnTouchStart d
  end.

Definition isSmallScreen (window : option Device) : bool :=
  match window with
  | None => false
  | Some d => PrimFloat.leb (device_innerWidth d) 480%float
  end.

Definition getTouchTargetSize (window : option Device) : number :=
  if isSmallScreen window then 52%float
  else if isMobile window then 48%float
  else 44%float.

(** [optimizeModalPosition(modal)]; [None] is a missing element, and the
    result is the element after the call. *)
Definition optimizeModalPosition (window : option Device)
    (modal : option Element) : option Element :=
  match modal with
  | None => None
  | Some e =>
      if isMobile window then
        let e := setProperty "position" (Keyword "fixed") e in
        let e := setProperty "top" (Keyword "2.5vh") e in
        let e := setProperty "left" (Keyword "2.5vw") e in
        let e := setProperty "right" (Keyword "2.5vw") e in
        let e := setProperty "bottom" (Keyword "2.5vh") e in
        let e := setProperty "width" (Keyword "auto") e in
        let e := setProperty "height" (Keyword "auto") e in
        let e := setProperty "margin" (Keyword "0") e in
        Some (setProperty "transform" (Keyword "none") e)
      else Some e
  end.

Definition optimizeDropdownPosition (window : option Device)
    (dropdown : option Element) : option Element :=
  match dropdown with
  | None => None
  | Some e =>
      if isMobile window then
        let e := setProperty "position" (Keyword "fixed") e in
        let e := setProperty "bottom" (Keyword "0") e in
        let e := setProperty "left" (Keyword "0") e in
        let e := setProperty "right" (Keyword "0") e in
        let e := setProperty "top" (Keyword "auto") e in
        let e := setProperty "width" (Keyword "100%") e in
        let e := setProperty "max-width" (Keyword "100%") e in
        let e := setProperty "border-radius" (Keyword "16px 16px 0 0") e in
        let e := setProperty "margin" (Keyword "0") e in
        Some (setProperty "transform" (Keyword "none") e)
      else Some e
  end.

(** *** The published properties as a whole *)

(** The three custom properties of the root hold the values [scale], [font]
    and the configured touch size. *)
Definition publishes (s : State) (scale font : number) : Prop :=
  getPropertyValue scaleFactorProperty (root s) = Some (NumberString scale) ∧
  getPropertyValue fontBaseProperty (root s) = Some (Px font) ∧
  getPropertyValue touchMinSizeProperty (root s) =
    Some (Px (touchMinSize (config (this s)))).

(** They are all absent on a controller that is not compact, or they hold
    the normal level, or they hold the smaller level, which then has its
    class on the root and was set by hand. *)
Definition coherent (s : State) : Prop :=
  (isCompactMode (this s) = false ∧
   getPropertyValue scaleFactorProperty (root s) = None ∧
   getPropertyValue fontBaseProperty (root s) = None ∧
   getPropertyValue touchMinSizeProperty (root s) = None) ∨
  publishes s (scaleFactor (config (this s))) 12%float ∨
  (publishes s 0.8%float 11%float ∧
   smallerClass ∈ classList (root s) ∧ isManualMode (this s) = true).

(** * Properties *)

(** ** What the helpers leave alone *)

(** Expose the fields of a state, so that the updates compute. *)
Ltac destruct_state s :=
  destruct s as [[?cfg ?cm ?mm ?ro ?mq] [[?tag ?rl ?cl ?st] ?ds ?ls ?ev ?fn]].

Lemma touch_frame_refl s : touch_frame s s.
Proof. by repeat split. Qed.

Lemma touch_frame_trans s1 s2 s3 :
  touch_frame s1 s2 → touch_frame s2 s3 → touch_frame s1 s3.
Proof.
  intros (Ht & Hc & Hp & Hd) (Ht' & Hc' & Hp' & Hd').
  repeat split; [congruence | congruence | | congruence].
  intros k Hk. rewrite Hp' by done. by apply Hp.
Qed.

Lemma setTouchAction_frame sel s : touch_frame s (on_all (setTouchAction sel) s).
Proof.
  destruct_state s.
  unfold touch_frame, root, getPropertyValue, setTouchAction, setProperty. cbn.
  destruct (matches sel _); cbn; repeat split; try done.
  intros k Hk. by rewrite lookup_insert_ne.
Qed.

Lemma foldl_setTouchAction_frame sels s :
  touch_frame s (foldl (λ s sel, on_all (setTouchAction sel) s) s sels).
Proof.
  revert s. induction sels as [|sel sels IH]; intros s; cbn [foldl].
  - apply touch_frame_refl.
  - eapply touch_frame_trans; [apply setTouchAction_frame | apply IH].
Qed.

Lemma addTouchActionToElements_frame s :
  touch_frame s (addTouchActionToElements s).
Proof. apply foldl_setTouchAction_frame. Qed.

(** ** The controller's fields after enabling and disabling *)

Lemma document_dispatchEvent_effect d s :
  this (document_dispatchEvent d s) = this s ∧
  root (document_dispatchEvent d s) = root s ∧
  dispatched (page (document_dispatchEvent d s)) = dispatched (page s) ++ [d].
Proof. by destruct_state s. Qed.

Lemma enableCompactMode_this s :
  this (enableCompactMode s) = this (with_isCompactMode true s).
Proof.
  unfold enableCompactMode.
  destruct (isCompactMode (this s)) eqn:Hc.
  { destruct_state s. cbn in Hc. by subst. }
  cbn zeta. unfold dispatchCompactModeEvent.
  rewrite (proj1 (document_dispatchEvent_effect _ _)).
  rewrite (proj1 (addTouchActionToElements_frame _)).
  by destruct_state s.
Qed.

Lemma disableCompactMode_this s :
  this (disableCompactMode s) = this (with_isCompactMode false s).
Proof. destruct_state s. by destruct cm. Qed.

Lemma enableCompactMode_isCompactMode s :
  isCompactMode (this (enableCompactMode s)) = true.
Proof. rewrite enableCompactMode_this. by destruct_state s. Qed.

Lemma disableCompactMode_isCompactMode s :
  isCompactMode (this (disableCompactMode s)) = false.
Proof. rewrite disableCompactMode_this. by destruct_state s. Qed.

Lemma setCompactModeLevel_this level s :
  this (setCompactModeLevel level s) = this (with_isManualMode true s).
Proof. destruct_state s. by destruct level. Qed.

Lemma toggleCompactMode_this s :
  this (toggleCompactMode s) =
  this (with_isCompactMode (negb (isCompactMode (this s)))
          (with_isManualMode true s)).
Proof.
  unfold toggleCompactMode. cbn zeta.
  destruct (isCompactMode (this (with_isManualMode true s))) eqn:Hc;
    rewrite ?disableCompactMode_this, ?enableCompactMode_this;
    destruct_state s; cbn in Hc; by subst.
Qed.

(** The two flags and the configuration after each operation. *)
Lemma enableCompactMode_flags s :
  isCompactMode (this (enableCompactMode s)) = true ∧
  isManualMode (this (enableCompactMode s)) = isManualMode (this s) ∧
  config (this (enableCompactMode s)) = config (this s).
Proof. rewrite enableCompactMode_this. by destruct_state s. Qed.

Lemma disableCompactMode_flags s :
  isCompactMode (this (disableCompactMode s)) = false ∧
  isManualMode (this (disableCompactMode s)) = isManualMode (this s) ∧
  config (this (disableCompactMode s)) = config (this s).
Proof. rewrite disableCompactMode_this. by destruct_state s. Qed.

Lemma toggleCompactMode_flags s :
  isCompactMode (this (toggleCompactMode s)) = negb (isCompactMode (this s)) ∧
  isManualMode (this (toggleCompactMode s)) = true ∧
  config (this (toggleCompactMode s)) = config (this s).
Proof. rewrite toggleCompactMode_this. by destruct_state s. Qed.

Lemma setCompactModeLevel_flags level s :
  isCompactMode (this (setCompactModeLevel level s)) = isCompactMode (this s) ∧
  isManualMode (this (setCompactModeLevel level s)) = true ∧
  config (this (setCompactModeLevel level s)) = config (this s).
Proof. rewrite setCompactModeLevel_this. by destruct_state s. Qed.

(** ** Width evaluation in auto mode *)

(** C1: in auto mode ([autoEnable] set, [isManualMode] clear),
    [autoDetectAndApply] with [window.innerWidth = w] returns, and afterwards
    [isCompactMode] is [w <= config.breakpoint]. *)
Theorem autoDetectAndApply_auto (w : Window) (s : State) :
  autoEnable (config (this s)) = true →
  isManualMode (this s) = false →
  ∃ s', autoDetectAndApply (Some w) s = Normal s' ∧
        isCompactMode (this s') =
          PrimFloat.leb (innerWidth w) (breakpoint (config (this s))).
Proof.
  intros Hauto Hman. unfold autoDetectAndApply. rewrite Hauto, Hman. cbn.
  destruct (PrimFloat.leb _ _), (isCompactMode (this s)) eqn:Hc; cbn;
    eexists; (split; [reflexivity|]);
    rewrite ?enableCompactMode_isCompactMode,
            ?disableCompactMode_isCompactMode; done.
Qed.

Lemma autoDetectAndApply_auto_witness :
  ∃ s', autoDetectAndApply (Some phone) idle = Normal s' ∧
        isCompactMode (this s') = PrimFloat.leb 375%float 480%float.
Proof. apply (autoDetectAndApply_auto phone idle); reflexivity. Defined.

(** ** Manual operations *)

(** C4: [toggleCompactMode] negates [isCompactMode] and sets [isManualMode];
    two calls in a row give back the original [isCompactMode] and leave
    [isManualMode] set. *)
Theorem toggleCompactMode_flips (s : State) :
  isCompactMode (this (toggleCompactMode s)) = negb (isCompactMode (this s)) ∧
  isManualMode (this (toggleCompactMode s)) = true ∧
  isCompactMode (this (toggleCompactMode (toggleCompactMode s))) =
    isCompactMode (this s) ∧
  isManualMode (this (toggleCompactMode (toggleCompactMode s))) = true.
Proof.
  destruct (toggleCompactMode_flags s) as (Hc & Hm & _).
  destruct (toggleCompactMode_flags (toggleCompactMode s)) as (Hc' & Hm' & _).
  by rewrite Hc', Hm', Hc, Hm, negb_involutive.
Qed.

(** C7: for either level, [setCompactModeLevel] sets [isManualMode] and
    leaves [isCompactMode] as it was. *)
Theorem setCompactModeLevel_manual (level : Level) (s : State) :
  isManualMode (this (setCompactModeLevel level s)) = true ∧
  isCompactMode (this (setCompactModeLevel level s)) = isCompactMode (this s).
Proof. by destruct (setCompactModeLevel_flags level s) as (-> & -> & _). Qed.

Lemma enableCompactMode_noop s :
  isCompactMode (this s) = true → enableCompactMode s = s.
Proof. intros Hc. unfold enableCompactMode. by rewrite Hc. Qed.

Lemma disableCompactMode_noop s :
  isCompactMode (this s) = false → disableCompactMode s = s.
Proof. intros Hc. unfold disableCompactMode. by rewrite Hc. Qed.

(** C6: [enableCompactMode] on a compact controller, and
    [disableCompactMode] on one that is not compact, return the state they
    were given: the fields, the root's classes and style, and the dispatched
    events are all as before. *)
Theorem enable_disable_idempotent (s : State) :
  (isCompactMode (this s) = true → enableCompactMode s = s) ∧
  (isCompactMode (this s) = false → disableCompactMode s = s).
Proof.
  split; [apply enableCompactMode_noop | apply disableCompactMode_noop].
Qed.

Lemma enable_disable_idempotent_witness :
  enableCompactMode (enableCompactMode idle) = enableCompactMode idle ∧
  disableCompactMode idle = idle.
Proof.
  split.
  - apply (proj1 (enable_disable_idempotent (enableCompactMode idle))).
    vm_compute. reflexivity.
  - apply (proj2 (enable_disable_idempotent idle)). reflexivity.
Defined.

(** ** The level round trip *)

Lemma updateCSSProperties_overwrites a b a' b' s :
  updateCSSProperties a b (updateCSSProperties a' b' s) =
  updateCSSProperties a b s.
Proof.
  destruct_state s. unfold updateCSSProperties. cbn.
  do 3 f_equal. apply map_eq. intros k.
  unfold scaleFactorProperty, fontBaseProperty, touchMinSizeProperty.
  rewrite !lookup_insert. repeat case_decide; congruence.
Qed.

(** What [updateCSSProperties] publishes. *)
Lemma updateCSSProperties_publishes a b s :
  let e := root (updateCSSProperties a b s) in
  getPropertyValue scaleFactorProperty e =
    Some (NumberString (or_else a (scaleFactor (config (this s))))) ∧
  getPropertyValue fontBaseProperty e = Some (Px (or_else b 12%float)) ∧
  getPropertyValue touchMinSizeProperty e =
    Some (Px (touchMinSize (config (this s)))) ∧
  classList e = classList (root s) ∧
  this (updateCSSProperties a b s) = this s ∧
  dispatched (page (updateCSSProperties a b s)) = dispatched (page s).
Proof.
  destruct_state s. cbn. unfold getPropertyValue. cbn. by simplify_map_eq.
Qed.

(** C5: [setCompactModeLevel("smaller")] followed by
    [setCompactModeLevel("normal")] ends in the state that
    [setCompactModeLevel("normal")] alone reaches: the scale-factor property
    is [config.scaleFactor], the base font is the default [12px], and the
    [compact-mode-smaller] class is absent. *)
Theorem setCompactModeLevel_round_trip (s : State) :
  let s' := setCompactModeLevel normal (setCompactModeLevel smaller s) in
  s' = setCompactModeLevel normal s ∧
  getPropertyValue scaleFactorProperty (root s') =
    Some (NumberString (scaleFactor (config (this s)))) ∧
  getPropertyValue fontBaseProperty (root s') = Some (Px 12%float) ∧
  contains smallerClass (root s') = false.
Proof.
  cbn zeta.
  assert (Heq : setCompactModeLevel normal (setCompactModeLevel smaller s) =
                setCompactModeLevel normal s).
  { unfold setCompactModeLevel.
    set (u := updateCSSProperties (Some 0.8%float) (Some 11%float)).
    transitivity
      (updateCSSProperties None None
         (u (on_root (classList_remove [smallerClass])
               (with_isManualMode true s)))).
    - f_equal. unfold u. destruct_state s. cbn. do 3 f_equal. set_solver.
    - unfold u. apply updateCSSProperties_overwrites. }
  rewrite Heq. split; [done|]. unfold setCompactModeLevel.
  destruct (updateCSSProperties_publishes None None
              (on_root (classList_remove [smallerClass])
                 (with_isManualMode true s)))
    as (Hs & Hf & _ & Hcl & _).
  cbn zeta in Hs, Hf, Hcl. rewrite Hs, Hf.
  unfold contains. rewrite bool_decide_eq_false, Hcl.
  destruct_state s. cbn. split; [done|]. split; [done|]. set_solver.
Qed.

(** ** Runs never throw in a browser *)

Lemma autoDetectAndApply_cases w s :
  autoDetectAndApply (Some w) s = Normal s ∨
  autoDetectAndApply (Some w) s = Normal (enableCompactMode s) ∨
  autoDetectAndApply (Some w) s = Normal (disableCompactMode s).
Proof.
  unfold autoDetectAndApply.
  destruct (negb _ || _); [by left|].
  destruct (_ && _); [by right; left|].
  destruct (_ && _); [by right; right|by left].
Qed.

Lemma autoDetectAndApply_total w s :
  ∃ s', autoDetectAndApply (Some w) s = Normal s'.
Proof. destruct (autoDetectAndApply_cases w s) as [H|[H|H]]; eauto. Qed.

Lemma resizeObserverCallback_cons window entry entries s :
  resizeObserverCallback window (entry :: entries) s =
  (s1 ← (if targetIsDocumentElement entry
         then autoDetectAndApply window s else Normal s);
   resizeObserverCallback window entries s1).
Proof.
  unfold resizeObserverCallback. cbn [foldl mbind completion_bind].
  destruct (if targetIsDocumentElement entry then _ else _) as [s1|e]; [done|].
  cbn. induction entries as [|? ? IH]; [done|apply IH].
Qed.

Lemma resizeObserverCallback_total w entries s :
  ∃ s', resizeObserverCallback (Some w) entries s = Normal s'.
Proof.
  revert s. induction entries as [|entry entries IH]; intros s; [by eexists|].
  rewrite resizeObserverCallback_cons.
  destruct (targetIsDocumentElement entry); [|apply IH].
  destruct (autoDetectAndApply_total w s) as [s1 ->]. apply IH.
Qed.

Lemma step_total op s : ∃ s', step op s = Normal s'.
Proof.
  destruct op; cbn [step]; eauto using autoDetectAndApply_total,
    resizeObserverCallback_total.
  unfold handleMediaQueryChange.
  destruct (negb _); eauto using autoDetectAndApply_total.
Qed.

Lemma run_cons op ops s :
  run (op :: ops) s = (s1 ← step op s; run ops s1).
Proof.
  unfold run. cbn [foldl mbind completion_bind].
  destruct (step op s) as [s1|e]; [done|].
  cbn. induction ops as [|? ? IH]; [done|apply IH].
Qed.

Lemma run_total ops s : ∃ s', run ops s = Normal s'.
Proof.
  revert s. induction ops as [|op ops IH]; intros s; [by eexists|].
  rewrite run_cons. destruct (step_total op s) as [s1 ->]. apply IH.
Qed.

(** ** Manual mode *)

Lemma destroy_unfold s :
  ∃ s1, same_view s s1 ∧ destroy s = disableCompactMode s1.
Proof.
  unfold destroy. eexists. split; [|reflexivity].
  destruct_state s. by destruct mq, ro.
Qed.

Lemma destroy_flags s :
  isCompactMode (this (destroy s)) = false ∧
  isManualMode (this (destroy s)) = isManualMode (this s) ∧
  config (this (destroy s)) = config (this s).
Proof.
  destruct (destroy_unfold s) as (s1 & (Hcfg & _ & Hm & _) & ->).
  destruct (disableCompactMode_flags s1) as (-> & -> & ->). done.
Qed.

Lemma updateConfig_manual window cfg s :
  isManualMode (this (updateConfig window cfg s)) = isManualMode (this s).
Proof.
  unfold updateConfig. cbn zeta.
  set (s1 := setupMediaQuery _ _).
  assert (H1 : isManualMode (this s1) = isManualMode (this s)).
  { unfold s1, setupMediaQuery. destruct_state s. by destruct mq, window. }
  destruct (isCompactMode (this s1)); [|done].
  by destruct (updateCSSProperties_publishes None None s1)
    as (_ & _ & _ & _ & -> & _).
Qed.

Section Manual.

Variable s : State.
Hypothesis manual : isManualMode (this s) = true.

Lemma autoDetectAndApply_manual window : autoDetectAndApply window s = Normal s.
Proof. unfold autoDetectAndApply. rewrite manual. by rewrite orb_true_r. Qed.

Lemma handleMediaQueryChange_manual window :
  handleMediaQueryChange window s = Normal s.
Proof. unfold handleMediaQueryChange. by rewrite manual. Qed.

Lemma resizeObserverCallback_manual window entries :
  resizeObserverCallback window entries s = Normal s.
Proof.
  induction entries as [|entry entries IH]; [done|].
  rewrite resizeObserverCallback_cons.
  destruct (targetIsDocumentElement entry);
    rewrite ?autoDetectAndApply_manual; apply IH.
Qed.

Lemma step_manual op s' : step op s = Normal s' → isManualMode (this s') = true.
Proof.
  destruct op; cbn [step].
  - intros [= <-]. by destruct (enableCompactMode_flags s) as (_ & -> & _).
  - intros [= <-]. by destruct (disableCompactMode_flags s) as (_ & -> & _).
  - intros [= <-]. by destruct (toggleCompactMode_flags s) as (_ & -> & _).
  - intros [= <-]. by destruct (setCompactModeLevel_flags level s) as (_ & -> & _).
  - rewrite autoDetectAndApply_manual. by intros [= <-].
  - rewrite handleMediaQueryChange_manual. by intros [= <-].
  - rewrite resizeObserverCallback_manual. by intros [= <-].
  - intros [= <-]. by destruct (destroy_flags s) as (_ & -> & _).
Qed.

End Manual.

(** C3: from a state in which [isManualMode] is set, every run of operations
    returns, [isManualMode] is still set afterwards ([updateConfig] keeps it
    too), and a width re-evaluation there, whether through
    [autoDetectAndApply], the media-query listener or the resize observer,
    returns the state it was given, so [isCompactMode] is as before. *)
Theorem manual_mode_is_permanent (s : State) (ops : list Op) :
  isManualMode (this s) = true →
  ∃ s', run ops s = Normal s' ∧
        isManualMode (this s') = true ∧
        (∀ window cfg, isManualMode (this (updateConfig window cfg s')) = true) ∧
        ∀ window entries,
          autoDetectAndApply window s' = Normal s' ∧
          handleMediaQueryChange window s' = Normal s' ∧
          resizeObserverCallback window entries s' = Normal s'.
Proof.
  revert s. induction ops as [|op ops IH]; intros s Hman.
  - exists s. split; [done|]. split; [done|]. split.
    + intros window cfg. by rewrite updateConfig_manual.
    + auto using autoDetectAndApply_manual, handleMediaQueryChange_manual,
        resizeObserverCallback_manual.
  - rewrite run_cons. destruct (step_total op s) as [s1 Hs1]. rewrite Hs1.
    apply IH. by eapply step_manual.
Qed.

Lemma manual_mode_is_permanent_witness :
  ∃ s', run [AutoDetectAndApply phone; DisableCompactMode; Resize phone [mkEntry true]]
          (toggleCompactMode idle) = Normal s' ∧
        isManualMode (this s') = true ∧
        (∀ window cfg, isManualMode (this (updateConfig window cfg s')) = true) ∧
        ∀ window entries,
          autoDetectAndApply window s' = Normal s' ∧
          handleMediaQueryChange window s' = Normal s' ∧
          resizeObserverCallback window entries s' = Normal s'.
Proof.
  apply (manual_mode_is_permanent (toggleCompactMode idle)).
  vm_compute. reflexivity.
Defined.

(** ** What enabling, disabling and the levels do to the root element *)

Lemma enableCompactMode_effect s :
  isCompactMode (this s) = false →
  let s' := enableCompactMode s in
  classList (root s') = {[ compactClass ]} ∪ classList (root s) ∧
  getPropertyValue scaleFactorProperty (root s') =
    Some (NumberString (scaleFactor (config (this s)))) ∧
  getPropertyValue fontBaseProperty (root s') = Some (Px 12%float) ∧
  getPropertyValue touchMinSizeProperty (root s') =
    Some (Px (touchMinSize (config (this s)))) ∧
  dispatched (page s') =
    dispatched (page s) ++ [mkDetail enabled true (scaleFactor (config (this s)))].
Proof.
  intros Hc. unfold enableCompactMode. rewrite Hc. cbn zeta.
  set (s1 := on_root (classList_add compactClass) (with_isCompactMode true s)).
  destruct (addTouchActionToElements_frame (updateCSSProperties None None s1))
    as (Ht & Hcl & Hp & Hd).
  destruct (updateCSSProperties_publishes None None s1)
    as (Hs & Hf & Hm & Hcl' & Ht' & Hd').
  cbn zeta in Hs, Hf, Hm, Hcl'.
  unfold dispatchCompactModeEvent.
  destruct (document_dispatchEvent_effect
    (mkDetail enabled
       (isCompactMode
          (this (addTouchActionToElements (updateCSSProperties None None s1))))
       (scaleFactor
          (config
             (this (addTouchActionToElements (updateCSSProperties None None s1))))))
    (addTouchActionToElements (updateCSSProperties None None s1)))
    as (_ & -> & ->).
  rewrite Hcl, !Hp by done. rewrite Hcl', Hs, Hf, Hm, Hd, Ht, Hd', Ht'.
  unfold s1. destruct_state s. cbn in *. by subst.
Qed.

Lemma disableCompactMode_effect s :
  isCompactMode (this s) = true →
  let s' := disableCompactMode s in
  classList (root s') = classList (root s) ∖ {[ compactClass; smallerClass ]} ∧
  getPropertyValue scaleFactorProperty (root s') = None ∧
  getPropertyValue fontBaseProperty (root s') = None ∧
  getPropertyValue touchMinSizeProperty (root s') = None ∧
  dispatched (page s') =
    dispatched (page s) ++ [mkDetail disabled false (scaleFactor (config (this s)))].
Proof.
  intros Hc. unfold disableCompactMode. rewrite Hc.
  destruct_state s. cbn in Hc. subst. cbn.
  unfold getPropertyValue. cbn. split; [set_solver|]. by simplify_map_eq.
Qed.

Lemma setCompactModeLevel_effect level s :
  let s' := setCompactModeLevel level s in
  (compactClass ∈ classList (root s') ↔ compactClass ∈ classList (root s)) ∧
  (smallerClass ∈ classList (root s') ↔ level = smaller) ∧
  getPropertyValue scaleFactorProperty (root s') =
    Some (NumberString (match level with
                        | smaller => 0.8%float
                        | normal => scaleFactor (config (this s))
                        end)) ∧
  getPropertyValue fontBaseProperty (root s') =
    Some (Px (match level with smaller => 11%float | normal => 12%float end)) ∧
  getPropertyValue touchMinSizeProperty (root s') =
    Some (Px (touchMinSize (config (this s)))) ∧
  dispatched (page s') = dispatched (page s).
Proof.
  destruct_state s.
  destruct level; cbn; unfold getPropertyValue; cbn;
    (split; [set_solver|split; [set_solver|by simplify_map_eq]]).
Qed.

(** ** The invariant of a run *)

(** [consistent] reads the configuration, the two flags, the root element
    and the dispatched events, nothing else. *)
Lemma consistent_ext s1 s2 : same_view s1 s2 → consistent s1 → consistent s2.
Proof.
  intros (Hcfg & Hc & Hm & Hr & Hd) [H1 H2 H3 H4].
  split; rewrite ?Hcfg, ?Hc, ?Hm, ?Hr, ?Hd; done.
Qed.

Lemma consistent_enable s : consistent s → consistent (enableCompactMode s).
Proof.
  intros H.
  destruct (isCompactMode (this s)) eqn:Hc;
    [by rewrite enableCompactMode_noop|].
  destruct H as [H1 H2 H3 H4].
  destruct (enableCompactMode_effect s Hc) as (Hcl & Hs & _ & _ & Hd).
  destruct (enableCompactMode_flags s) as (Hc' & Hm' & Hcfg').
  split; rewrite ?Hc', ?Hm', ?Hcfg'.
  - rewrite Hcl. set_solver.
  - intros _. by left.
  - done.
  - rewrite Hd. apply Forall_app. split; [done|]. by repeat constructor.
Qed.

Lemma consistent_disable s : consistent s → consistent (disableCompactMode s).
Proof.
  intros H.
  destruct (isCompactMode (this s)) eqn:Hc;
    [|by rewrite disableCompactMode_noop].
  destruct H as [H1 H2 H3 H4].
  destruct (disableCompactMode_effect s Hc) as (Hcl & Hs & Hf & Hm & Hd).
  destruct (disableCompactMode_flags s) as (Hc' & Hm' & Hcfg').
  split; rewrite ?Hc', ?Hm', ?Hcfg'.
  - rewrite Hcl. set_solver.
  - done.
  - intros _ _. rewrite Hcl. repeat split; [done..|set_solver].
  - rewrite Hd. apply Forall_app. split; [done|]. by repeat constructor.
Qed.

Lemma consistent_manual s : consistent s → consistent (with_isManualMode true s).
Proof.
  intros [H1 H2 H3 H4]. destruct_state s. split; cbn in *; [done| |done|done].
  intros Hc. destruct (H2 Hc) as [?|(_ & ? & ?)]; auto.
Qed.

Lemma consistent_toggle s : consistent s → consistent (toggleCompactMode s).
Proof.
  intros H. unfold toggleCompactMode. cbn zeta.
  destruct (isCompactMode _);
    auto using consistent_enable, consistent_disable, consistent_manual.
Qed.

Lemma consistent_setLevel level s :
  consistent s → consistent (setCompactModeLevel level s).
Proof.
  intros [H1 H2 H3 H4].
  destruct (setCompactModeLevel_effect level s) as (Hcl & Hsm & Hs & _ & _ & Hd).
  destruct (setCompactModeLevel_flags level s) as (Hc' & Hm' & Hcfg').
  split; rewrite ?Hc', ?Hm', ?Hcfg'.
  - by rewrite Hcl.
  - intros _. rewrite Hs, Hsm. destruct level; auto.
  - done.
  - by rewrite Hd.
Qed.

Lemma consistent_destroy s : consistent s → consistent (destroy s).
Proof.
  intros H. destruct (destroy_unfold s) as (s1 & Hv & ->).
  apply consistent_disable. by eapply consistent_ext.
Qed.

Lemma consistent_autoDetect w s s' :
  consistent s → autoDetectAndApply (Some w) s = Normal s' → consistent s'.
Proof.
  intros H.
  destruct (autoDetectAndApply_cases w s) as [->|[->| ->]]; intros [= <-];
    auto using consistent_enable, consistent_disable.
Qed.

Lemma consistent_resize w entries s s' :
  consistent s →
  resizeObserverCallback (Some w) entries s = Normal s' → consistent s'.
Proof.
  revert s. induction entries as [|entry entries IH]; intros s H.
  - by intros [= <-].
  - rewrite resizeObserverCallback_cons.
    destruct (targetIsDocumentElement entry); [|by apply IH].
    destruct (autoDetectAndApply_total w s) as [s1 Hs1]. rewrite Hs1.
    apply IH. by eapply consistent_autoDetect.
Qed.

Lemma consistent_step op s s' :
  consistent s → step op s = Normal s' → consistent s'.
Proof.
  intros H. destruct op; cbn [step];
    try (intros [= <-];
         auto using consistent_enable, consistent_disable, consistent_toggle,
           consistent_setLevel, consistent_destroy; fail).
  - by apply consistent_autoDetect.
  - unfold handleMediaQueryChange. destruct (negb _).
    + by apply consistent_autoDetect.
    + by intros [= <-].
  - by apply consistent_resize.
Qed.

(** The listeners and observers set up by the constructor leave the
    configuration, the flags, the root's classes and custom properties and
    the event stream alone. *)
Lemma setup_view w s :
  let s' := setupPassiveListeners (Some w)
              (setupResizeObserver (Some w) (setupMediaQuery (Some w) s)) in
  config (this s') = config (this s) ∧
  isCompactMode (this s') = isCompactMode (this s) ∧
  isManualMode (this s') = isManualMode (this s) ∧
  classList (root s') = classList (root s) ∧
  (∀ k, k ≠ "touch-action" →
        getPropertyValue k (root s') = getPropertyValue k (root s)) ∧
  dispatched (page s') = dispatched (page s).
Proof.
  destruct_state s.
  unfold setupPassiveListeners, setupResizeObserver, setupMediaQuery.
  cbn -[addTouchActionToElements root getPropertyValue].
  destruct (hasResizeObserver w);
    cbn -[addTouchActionToElements root getPropertyValue];
    (destruct (enablePassiveListeners cfg);
     cbn -[addTouchActionToElements root getPropertyValue]; [|done]).
  all: match goal with
       | |- context [addTouchActionToElements ?x] =>
           destruct (addTouchActionToElements_frame x) as (Ht & Hc & Hk & Hd)
       end.
  all: rewrite Ht, Hc, Hd; repeat split; intros k Hne; by rewrite Hk.
Qed.

Lemma consistent_new w cfg p s :
  fresh p → new_CompactMobileMode (Some w) cfg p = Normal s → consistent s.
Proof.
  intros (Hc & Hs & Hsf & Hfb & Htm & Hd). unfold new_CompactMobileMode, init.
  apply consistent_autoDetect.
  destruct (setup_view w
    (mkState (mkController (spread defaultConfig cfg) false false None None) p))
    as (Hcfg & Hcm & Hmm & Hcl & Hk & Hdi).
  apply bool_decide_eq_false in Hc, Hs.
  split; rewrite ?Hcfg, ?Hcm, ?Hmm, ?Hcl, ?Hdi, ?Hk by done; cbn.
  - split; [done|]. intros ?. by destruct Hc.
  - done.
  - done.
  - rewrite Hd. constructor.
Qed.

Lemma reachable_consistent s : reachable s → consistent s.
Proof.
  induction 1 as [w cfg p s Hf Hn|op s s' _ IH Hstep].
  - by eapply consistent_new.
  - by eapply consistent_step.
Qed.

(** ** Two concrete controllers *)

Lemma fresh_emptyPage : fresh emptyPage.
Proof. vm_compute. repeat split; reflexivity. Qed.

Lemma new_onPhone :
  new_CompactMobileMode (Some phone) noConfig emptyPage = Normal onPhone.
Proof. vm_compute. reflexivity. Qed.

Lemma new_onDesktop :
  new_CompactMobileMode (Some desktop) noConfig emptyPage = Normal onDesktop.
Proof. vm_compute. reflexivity. Qed.

Lemma reachable_onPhone : reachable onPhone.
Proof. eapply reachable_new; [apply fresh_emptyPage|apply new_onPhone]. Qed.

Lemma reachable_onDesktop : reachable onDesktop.
Proof. eapply reachable_new; [apply fresh_emptyPage|apply new_onDesktop]. Qed.

Lemma NumberString_differs (x y : number) :
  PrimFloat.eqb x y = false →
  PrimFloat.eqb y y = true →
  Some (NumberString x) ≠ Some (NumberString y).
Proof.
  intros Hxy Hyy Heq.
  apply (f_equal (λ o, match o with
                       | Some (NumberString n) => PrimFloat.eqb n y
                       | _ => false
                       end)) in Heq.
  cbn beta iota in Heq. congruence.
Qed.

(** ** The scenarios of the specification *)

(** Breakpoint 480, width 375: the controller is compact and publishes
    0.857; a resize to 800 leaves it not compact with the custom properties
    removed. *)
Example resize_scenario :
  new_CompactMobileMode (Some phone) noConfig emptyPage = Normal onPhone ∧
  isCompactMode (this onPhone) = true ∧
  getPropertyValue scaleFactorProperty (root onPhone) =
    Some (NumberString 0.857%float) ∧
  ∃ s, step (Resize desktop [mkEntry true]) onPhone = Normal s ∧
       isCompactMode (this s) = false ∧
       contains compactClass (root s) = false ∧
       getPropertyValue scaleFactorProperty (root s) = None ∧
       getPropertyValue fontBaseProperty (root s) = None ∧
       getPropertyValue touchMinSizeProperty (root s) = None.
Proof.
  split; [apply new_onPhone|].
  split; [vm_compute; reflexivity|]. split; [vm_compute; reflexivity|].
  exists (disableCompactMode onPhone). vm_compute. repeat split; reflexivity.
Qed.

(** A manual toggle at width 800 makes the controller compact although the
    width exceeds the breakpoint, and later width changes do nothing. *)
Example manual_toggle_scenario :
  let s := toggleCompactMode onDesktop in
  isCompactMode (this s) = true ∧
  step (Resize desktop [mkEntry true]) s = Normal s ∧
  step (Resize phone [mkEntry true]) s = Normal s ∧
  step (MediaQueryChange desktop) s = Normal s.
Proof.
  cbn zeta.
  assert (Hm : isManualMode (this (toggleCompactMode onDesktop)) = true)
    by apply toggleCompactMode_flags.
  split; [vm_compute; reflexivity|]. cbn [step].
  rewrite !resizeObserverCallback_manual, handleMediaQueryChange_manual
    by exact Hm.
  repeat split; reflexivity.
Qed.

(** ** The marker class and the published scale factor *)

(** C2 fails as stated.  On a phone-wide window the controller goes compact;
    after [setCompactModeLevel("smaller")] the root still carries the compact
    class and the published scale-factor property is [0.8], yet the
    controller reports [0.857]: the published and the reported scale factor
    differ. *)
Lemma published_scale_is_not_reported_scale :
  let s := setCompactModeLevel smaller onPhone in
  reachable s ∧
  isCompactMode (this s) = true ∧
  contains compactClass (root s) = true ∧
  getPropertyValue scaleFactorProperty (root s) = Some (NumberString 0.8%float) ∧
  status_scaleFactor (getStatus s) = 0.857%float ∧
  getPropertyValue scaleFactorProperty (root s) ≠
    Some (NumberString (status_scaleFactor (getStatus s))).
Proof.
  cbn zeta.
  assert (Hp : getPropertyValue scaleFactorProperty
                 (root (setCompactModeLevel smaller onPhone)) =
               Some (NumberString 0.8%float))
    by apply (setCompactModeLevel_effect smaller onPhone).
  split; [|split; [|split; [|split; [|split]]]].
  - apply (reachable_step (SetCompactModeLevel smaller) onPhone);
      [apply reachable_onPhone|done].
  - vm_compute. reflexivity.
  - vm_compute. reflexivity.
  - exact Hp.
  - vm_compute. reflexivity.
  - rewrite Hp. apply NumberString_differs; vm_compute; reflexivity.
Qed.

(** C2, amended: in every reachable state [isCompactMode] is set exactly
    when the root carries the [compact-mode] class, and the controller
    reports [config.scaleFactor]; while compact, the published scale-factor
    property is that reported value or, in manual mode under the
    [compact-mode-smaller] class, the [0.8] of the smaller level; in auto
    mode the property is absent while not compact. *)
Theorem compact_mode_consistent (s : State) :
  reachable s →
  (isCompactMode (this s) = true ↔ contains compactClass (root s) = true) ∧
  status_scaleFactor (getStatus s) = scaleFactor (config (this s)) ∧
  (isCompactMode (this s) = true →
   getPropertyValue scaleFactorProperty (root s) =
     Some (NumberString (status_scaleFactor (getStatus s))) ∨
   (isManualMode (this s) = true ∧
    contains smallerClass (root s) = true ∧
    getPropertyValue scaleFactorProperty (root s) =
      Some (NumberString 0.8%float))) ∧
  (isManualMode (this s) = false →
   isCompactMode (this s) = false →
   getPropertyValue scaleFactorProperty (root s) = None).
Proof.
  intros [H1 H2 H3 _]%reachable_consistent. unfold contains.
  rewrite !bool_decide_eq_true. split; [done|]. split; [done|]. split.
  - exact H2.
  - intros Hm Hc. by destruct (H3 Hm Hc).
Qed.

Lemma compact_mode_consistent_witness :
  (isCompactMode (this onPhone) = true ↔
   contains compactClass (root onPhone) = true) ∧
  status_scaleFactor (getStatus onPhone) = scaleFactor (config (this onPhone)) ∧
  (isCompactMode (this onPhone) = true →
   getPropertyValue scaleFactorProperty (root onPhone) =
     Some (NumberString (status_scaleFactor (getStatus onPhone))) ∨
   (isManualMode (this onPhone) = true ∧
    contains smallerClass (root onPhone) = true ∧
    getPropertyValue scaleFactorProperty (root onPhone) =
      Some (NumberString 0.8%float))) ∧
  (isManualMode (this onPhone) = false →
   isCompactMode (this onPhone) = false →
   getPropertyValue scaleFactorProperty (root onPhone) = None).
Proof.
  apply (compact_mode_consistent onPhone).
  apply (reachable_new phone noConfig emptyPage onPhone).
  - vm_compute. repeat split; reflexivity.
  - vm_compute. reflexivity.
Defined.

(** ** The reported scale factor *)

(** C10: in every reachable state [getStatus().scaleFactor] is
    [config.scaleFactor] and so is the [scaleFactor] of every
    [compactModeChange] event dispatched so far; this stays so after
    [setCompactModeLevel("smaller")], which publishes [0.8]. *)
Theorem reported_scale_is_config_scale (s : State) :
  reachable s →
  status_scaleFactor (getStatus s) = scaleFactor (config (this s)) ∧
  Forall (λ d, detail_scaleFactor d = scaleFactor (config (this s)))
         (dispatched (page s)) ∧
  let s' := setCompactModeLevel smaller s in
  getPropertyValue scaleFactorProperty (root s') =
    Some (NumberString 0.8%float) ∧
  status_scaleFactor (getStatus s') = scaleFactor (config (this s)) ∧
  Forall (λ d, detail_scaleFactor d = scaleFactor (config (this s)))
         (dispatched (page s')).
Proof.
  intros [_ _ _ H4]%reachable_consistent. cbn zeta.
  destruct (setCompactModeLevel_effect smaller s) as (_ & _ & Hs & _ & _ & Hd).
  destruct (setCompactModeLevel_flags smaller s) as (_ & _ & Hcfg).
  rewrite Hd. split; [done|]. split; [done|]. split; [done|].
  split; [|done]. unfold getStatus. cbn [status_scaleFactor]. by rewrite Hcfg.
Qed.

Lemma reported_scale_is_config_scale_witness :
  status_scaleFactor (getStatus onPhone) = scaleFactor (config (this onPhone)) ∧
  Forall (λ d, detail_scaleFactor d = scaleFactor (config (this onPhone)))
         (dispatched (page onPhone)) ∧
  let s' := setCompactModeLevel smaller onPhone in
  getPropertyValue scaleFactorProperty (root s') =
    Some (NumberString 0.8%float) ∧
  status_scaleFactor (getStatus s') = scaleFactor (config (this onPhone)) ∧
  Forall (λ d, detail_scaleFactor d = scaleFactor (config (this onPhone)))
         (dispatched (page s')).
Proof.
  apply (reported_scale_is_config_scale onPhone).
  apply (reachable_new phone noConfig emptyPage onPhone).
  - vm_compute. repeat split; reflexivity.
  - vm_compute. reflexivity.
Defined.

(** ** Teardown *)

(** From a compact state [destroy] does clear the root element. *)
Lemma destroy_from_compact s :
  isCompactMode (this s) = true →
  contains compactClass (root (destroy s)) = false ∧
  contains smallerClass (root (destroy s)) = false ∧
  getPropertyValue scaleFactorProperty (root (destroy s)) = None ∧
  getPropertyValue fontBaseProperty (root (destroy s)) = None ∧
  getPropertyValue touchMinSizeProperty (root (destroy s)) = None.
Proof.
  intros Hc. destruct (destroy_unfold s) as (s1 & (_ & Hc1 & _) & ->).
  rewrite Hc in Hc1.
  destruct (disableCompactMode_effect s1 Hc1) as (Hcl & -> & -> & -> & _).
  unfold contains. rewrite !bool_decide_eq_false, Hcl.
  repeat split; set_solver.
Qed.

(** C9: the claim fails on the code.  A controller built at width 800 is not
    compact; [setCompactModeLevel("smaller")] then puts the
    [compact-mode-smaller] class and the three custom properties on the root,
    and [destroy()] returns with all four still there. *)
Theorem destroy_keeps_smaller_level :
  let s := destroy (setCompactModeLevel smaller onDesktop) in
  reachable s ∧
  isCompactMode (this s) = false ∧
  contains compactClass (root s) = false ∧
  contains smallerClass (root s) = true ∧
  getPropertyValue scaleFactorProperty (root s) = Some (NumberString 0.8%float) ∧
  getPropertyValue fontBaseProperty (root s) = Some (Px 11%float) ∧
  getPropertyValue touchMinSizeProperty (root s) = Some (Px 40%float).
Proof.
  cbn zeta. split.
  - apply (reachable_step Destroy (setCompactModeLevel smaller onDesktop));
      [|done].
    apply (reachable_step (SetCompactModeLevel smaller) onDesktop);
      [apply reachable_onDesktop|done].
  - vm_compute. repeat split; reflexivity.
Qed.

(** ** The singleton *)

Lemma new_CompactMobileMode_total w cfg p :
  ∃ s, new_CompactMobileMode (Some w) cfg p = Normal s.
Proof. apply autoDetectAndApply_total. Qed.

(** The two embeddings of the calls that take a configuration agree on the
    arguments they share. *)
Lemma declared_object_of c p :
  declared (spread_object c (object_of p)) = Some (spread c p).
Proof. destruct c, p as [[] [] [] [] []]; reflexivity. Qed.

Lemma new_CompactMobileMode_object_of w cfg p :
  ∃ s, new_CompactMobileMode (Some w) cfg p = Normal s ∧
       new_CompactMobileMode_object (Some w) (object_of cfg) p = Returns s.
Proof.
  destruct (new_CompactMobileMode_total w cfg p) as [s Hs]. exists s.
  split; [done|]. revert Hs.
  unfold new_CompactMobileMode, init, new_CompactMobileMode_object.
  cbn zeta. rewrite declared_object_of. by intros ->.
Qed.

Lemma updateConfig_object_of window cfg s :
  updateConfig_object window (object_of cfg) s =
  Returns (updateConfig window cfg s).
Proof.
  unfold updateConfig_object, updateConfig. cbn zeta.
  by rewrite declared_object_of.
Qed.

(** With no [undefined] stored, the constructor is [init] on a state. *)
Lemma new_CompactMobileMode_object_declared w o p c :
  declared (spread_object defaultConfig o) = Some c →
  ∃ s, init (Some w) (mkState (mkController c false false None None) p) =
         Normal s ∧
       new_CompactMobileMode_object (Some w) o p = Returns s.
Proof.
  intros Hd. unfold new_CompactMobileMode_object, init. cbn zeta.
  rewrite Hd.
  match goal with
  | |- context [autoDetectAndApply _ ?x] =>
      destruct (autoDetectAndApply_total w x) as [s Hs]
  end.
  exists s. by rewrite Hs.
Qed.

(** In a browser the constructor throws only out of [scale.toString()]. *)
Lemma new_CompactMobileMode_object_throws w o p e p' :
  new_CompactMobileMode_object (Some w) o p = Throws e p' →
  o_scaleFactor o = KeyUndefined.
Proof.
  unfold new_CompactMobileMode_object. cbn zeta.
  destruct (declared _) eqn:Hd.
  - match goal with
    | |- context [autoDetectAndApply _ ?x] =>
        destruct (autoDetectAndApply_total w x) as [s ->]
    end.
    done.
  - destruct (negb _); [done|]. destruct (PrimFloat.leb _ _); [|done].
    unfold updateCSSProperties_stored. cbn [stored_scaleFactor spread_object].
    by destruct (o_scaleFactor o).
Qed.

Lemma initCompactMobileMode_without_window o m :
  initCompactMobileMode None o m =
  InitThrows
    (PlainError
       "CompactMobileMode can only be initialized in browser environment") m.
Proof. reflexivity. Qed.

Lemma no_instance_without_window m :
  module_reachable None m → getCompactMobileMode m = None.
Proof.
  induction 1 as [p|o m c m' _ IH Hi|o m e m' _ IH Hi|m _ IH]; [done| | |].
  - by rewrite initCompactMobileMode_without_window in Hi.
  - rewrite initCompactMobileMode_without_window in Hi. by injection Hi as _ <-.
  - unfold destroyCompactMobileMode, getCompactMobileMode in *. by rewrite IH.
Qed.

(** Where the [undefined] is the scale factor, the constructor throws as
    soon as it goes compact, and [updateConfig] throws on any compact
    controller. *)
Lemma new_CompactMobileMode_object_undefined_scale w o p :
  o_scaleFactor o = KeyUndefined →
  let r := spread_object defaultConfig o in
  ToBoolean (stored_autoEnable r) = true →
  PrimFloat.leb (innerWidth w) (ToNumber (stored_breakpoint r)) = true →
  ∃ p', new_CompactMobileMode_object (Some w) o p =
          Throws (TypeError "toString") p'.
Proof.
  intros Ho r Ha Hw. unfold new_CompactMobileMode_object. fold r.
  assert (Hs : stored_scaleFactor r = None) by (cbn; by rewrite Ho).
  assert (Hd : declared r = None).
  { unfold declared. rewrite Hs.
    by destruct (stored_autoEnable r), (stored_breakpoint r). }
  rewrite Hd. cbn zeta. cbn [as_read autoEnable breakpoint].
  rewrite Ha, Hw. cbn [negb]. unfold updateCSSProperties_stored.
  rewrite Hs. by eexists.
Qed.

Lemma updateConfig_object_undefined_scale window o s :
  o_scaleFactor o = KeyUndefined →
  isCompactMode (this s) = true →
  ∃ p', updateConfig_object window o s = Throws (TypeError "toString") p'.
Proof.
  intros Ho Hc. unfold updateConfig_object.
  set (r := spread_object _ o).
  assert (Hs : stored_scaleFactor r = None) by (cbn; by rewrite Ho).
  assert (Hd : declared r = None).
  { unfold declared. rewrite Hs.
    by destruct (stored_autoEnable r), (stored_breakpoint r). }
  rewrite Hd. cbn zeta.
  assert (Hc' : isCompactMode
                  (this (setupMediaQuery window
                           (removeMediaQueryListener
                              (with_config (as_read r) s)))) = true).
  { clearbody r. destruct_state s. cbn in Hc. subst.
    unfold removeMediaQueryListener, setupMediaQuery.
    by destruct mq as [[? ?]|], window. }
  rewrite Hc'. unfold updateCSSProperties_stored. rewrite Hs. by eexists.
Qed.

(** C8 fails as stated.  With no instance yet, in a browser whose window is
    375 wide, [initCompactMobileMode({ scaleFactor: undefined })] throws a
    [TypeError]: the constructor stores the [undefined], goes compact, and
    [updateCSSProperties] reads [toString] of it.  The instance stays unset;
    the root element is left with the [compact-mode] class and without the
    custom properties. *)
Lemma initCompactMobileMode_throws_in_browser :
  let o := mkObject KeyAbsent KeyAbsent KeyUndefined KeyAbsent KeyAbsent in
  let m := mkModule None emptyPage in
  module_reachable (Some phone) m ∧
  ∃ m', initCompactMobileMode (Some phone) o m =
          InitThrows (TypeError "toString") m' ∧
        getCompactMobileMode m' = None ∧
        contains compactClass (documentElement (m_page m')) = true ∧
        getPropertyValue scaleFactorProperty (documentElement (m_page m')) =
          None.
Proof.
  cbn zeta. split; [apply module_loaded|].
  eexists. split; [vm_compute; reflexivity|].
  vm_compute. repeat split; reflexivity.
Qed.

(** C8, as amended: without a [window], [initCompactMobileMode] throws and
    the module state is what it was, so the instance is still unset.  With a
    [window] it returns a controller unless the argument holds the key
    [scaleFactor] with the value [undefined]; and if no key of the argument
    holds [undefined], the controller it returns is then the instance. *)
Theorem initCompactMobileMode_browser_only (o : ConfigObject) :
  (∀ m, module_reachable None m →
        ∃ e, initCompactMobileMode None o m = InitThrows e m ∧
             getCompactMobileMode m = None) ∧
  (∀ w m, o_scaleFactor o ≠ KeyUndefined →
          (∃ c m', initCompactMobileMode (Some w) o m = InitReturns c m') ∨
          initCompactMobileMode (Some w) o m = InitReturnsUndeclared) ∧
  (∀ w m c0, declared (spread_object defaultConfig o) = Some c0 →
             ∃ c m', initCompactMobileMode (Some w) o m = InitReturns c m' ∧
                     getCompactMobileMode m' = Some c).
Proof.
  split; [|split].
  - intros m Hm. eexists. split; [reflexivity|].
    by apply no_instance_without_window.
  - intros w m Ho. unfold initCompactMobileMode. cbn [undefined].
    destruct (compactMobileMode m) as [c|]; [left; by eexists _, _|].
    destruct (new_CompactMobileMode_object (Some w) o (m_page m))
      as [s| |e' p'] eqn:Hn; [left; by eexists _, _|by right|].
    by apply new_CompactMobileMode_object_throws in Hn.
  - intros w m c0 Hd. unfold initCompactMobileMode, getCompactMobileMode.
    cbn [undefined].
    destruct (compactMobileMode m) as [c|] eqn:Hc; [by eexists _, _|].
    destruct (new_CompactMobileMode_object_declared w o (m_page m) c0 Hd)
      as (s & _ & ->).
    by eexists _, _.
Qed.

Lemma initCompactMobileMode_browser_only_witness :
  (∃ e, initCompactMobileMode None noObject (mkModule None emptyPage) =
          InitThrows e (mkModule None emptyPage) ∧
        getCompactMobileMode (mkModule None emptyPage) = None) ∧
  ((∃ c m', initCompactMobileMode (Some phone) noObject
              (mkModule None emptyPage) = InitReturns c m') ∨
   initCompactMobileMode (Some phone) noObject (mkModule None emptyPage) =
     InitReturnsUndeclared) ∧
  (∃ c m', initCompactMobileMode (Some phone) noObject
             (mkModule None emptyPage) = InitReturns c m' ∧
           getCompactMobileMode m' = Some c).
Proof.
  split; [|split].
  - apply (proj1 (initCompactMobileMode_browser_only noObject)
             (mkModule None emptyPage)).
    apply module_loaded.
  - apply (proj1 (proj2 (initCompactMobileMode_browser_only noObject)) phone
             (mkModule None emptyPage)).
    discriminate.
  - apply (proj2 (proj2 (initCompactMobileMode_browser_only noObject)) phone
             (mkModule None emptyPage) defaultConfig).
    reflexivity.
Defined.

(** * Further properties *)

(** ** Listeners and function objects under the operations *)

Lemma addTouchActionToElements_bookkeeping s :
  bookkeeping (addTouchActionToElements s) = bookkeeping s.
Proof.
  unfold addTouchActionToElements. generalize interactiveSelectors.
  intros sels. revert s. induction sels as [|sel sels IH]; intros s; [done|].
  cbn [foldl]. rewrite IH. by destruct_state s.
Qed.

Lemma enableCompactMode_bookkeeping s :
  bookkeeping (enableCompactMode s) = bookkeeping s.
Proof.
  unfold enableCompactMode. destruct (isCompactMode (this s)); [done|].
  cbn zeta. unfold dispatchCompactModeEvent.
  set (s1 := addTouchActionToElements _).
  transitivity (bookkeeping s1); [by destruct_state s1|].
  unfold s1. rewrite addTouchActionToElements_bookkeeping. by destruct_state s.
Qed.

Lemma disableCompactMode_bookkeeping s :
  bookkeeping (disableCompactMode s) = bookkeeping s.
Proof. destruct_state s. by destruct cm. Qed.

Lemma toggleCompactMode_bookkeeping s :
  bookkeeping (toggleCompactMode s) = bookkeeping s.
Proof.
  unfold toggleCompactMode. cbn zeta.
  destruct (isCompactMode _);
    rewrite ?disableCompactMode_bookkeeping, ?enableCompactMode_bookkeeping;
    by destruct_state s.
Qed.

Lemma setCompactModeLevel_bookkeeping level s :
  bookkeeping (setCompactModeLevel level s) = bookkeeping s.
Proof. destruct_state s. by destruct level. Qed.

Lemma autoDetectAndApply_bookkeeping w s s' :
  autoDetectAndApply (Some w) s = Normal s' → bookkeeping s' = bookkeeping s.
Proof.
  destruct (autoDetectAndApply_cases w s) as [->|[->| ->]]; intros [= <-];
    auto using enableCompactMode_bookkeeping, disableCompactMode_bookkeeping.
Qed.

Lemma resizeObserverCallback_bookkeeping w entries s s' :
  resizeObserverCallback (Some w) entries s = Normal s' →
  bookkeeping s' = bookkeeping s.
Proof.
  revert s. induction entries as [|entry entries IH]; intros s.
  - by intros [= <-].
  - rewrite resizeObserverCallback_cons.
    destruct (targetIsDocumentElement entry); [|apply IH].
    destruct (autoDetectAndApply_total w s) as [s1 Hs1]. rewrite Hs1.
    intros H. rewrite (IH _ H). by eapply autoDetectAndApply_bookkeeping.
Qed.

(** ** What a transition dispatches *)

Lemma alternates_app b events1 events2 :
  alternates b (events1 ++ events2) =
  alternates b events1 && alternates (last_isCompact b events1) events2.
Proof.
  revert b. induction events1 as [|d events1 IH]; intros b; [done|].
  cbn [alternates app]. rewrite IH. unfold last_isCompact. cbn [foldl].
  by rewrite !andb_assoc.
Qed.

Lemma last_isCompact_app b events1 events2 :
  last_isCompact b (events1 ++ events2) =
  last_isCompact (last_isCompact b events1) events2.
Proof. apply foldl_app. Qed.

Lemma emits_refl s : emits s s [].
Proof. unfold emits. by rewrite app_nil_r. Qed.

Lemma emits_trans s1 s2 s3 events1 events2 :
  emits s1 s2 events1 → emits s2 s3 events2 → emits s1 s3 (events1 ++ events2).
Proof.
  intros (Hd & Hc & Ha & Hl & Hf) (Hd' & Hc' & Ha' & Hl' & Hf').
  repeat split.
  - by rewrite Hd', Hd, app_assoc.
  - congruence.
  - by rewrite alternates_app, Ha, Hl, Ha'.
  - by rewrite last_isCompact_app, Hl.
  - apply Forall_app. split; [done|]. by rewrite <- Hc.
Qed.

Lemma emits_same_view s s1 s' events :
  same_view s s1 → emits s1 s' events → emits s s' events.
Proof.
  intros (Hcfg & Hc & _ & _ & Hd) (Hd' & Hc' & Ha & Hl & Hf).
  unfold emits. by rewrite <- Hcfg, <- Hc, <- Hd.
Qed.

Lemma emits_enable s :
  ∃ events, emits s (enableCompactMode s) events ∧ length events ≤ 1.
Proof.
  destruct (isCompactMode (this s)) eqn:Hc.
  - exists []. rewrite enableCompactMode_noop by done.
    split; [apply emits_refl|cbn; lia].
  - destruct (enableCompactMode_effect s Hc) as (_ & _ & _ & _ & Hd).
    destruct (enableCompactMode_flags s) as (Hc' & _ & Hcfg).
    eexists [_]. split; [|done]. unfold emits.
    rewrite Hd, Hc, Hc', Hcfg. repeat split. by repeat constructor.
Qed.

Lemma emits_disable s :
  ∃ events, emits s (disableCompactMode s) events ∧ length events ≤ 1.
Proof.
  destruct (isCompactMode (this s)) eqn:Hc.
  - destruct (disableCompactMode_effect s Hc) as (_ & _ & _ & _ & Hd).
    destruct (disableCompactMode_flags s) as (Hc' & _ & Hcfg).
    eexists [_]. split; [|done]. unfold emits.
    rewrite Hd, Hc, Hc', Hcfg. repeat split. by repeat constructor.
  - exists []. rewrite disableCompactMode_noop by done.
    split; [apply emits_refl|cbn; lia].
Qed.

Lemma emits_manual s s' events :
  emits (with_isManualMode true s) s' events → emits s s' events.
Proof.
  intros (Hd & Hc & Ha & Hl & Hf). unfold emits.
  destruct_state s. by cbn in *.
Qed.

Lemma emits_autoDetect w s s' :
  autoDetectAndApply (Some w) s = Normal s' →
  ∃ events, emits s s' events ∧ length events ≤ 1.
Proof.
  destruct (autoDetectAndApply_cases w s) as [->|[->| ->]]; intros [= <-].
  - exists []. split; [apply emits_refl|cbn; lia].
  - apply emits_enable.
  - apply emits_disable.
Qed.

Lemma emits_resize w entries s s' :
  resizeObserverCallback (Some w) entries s = Normal s' →
  ∃ events, emits s s' events.
Proof.
  revert s. induction entries as [|entry entries IH]; intros s.
  - intros [= <-]. exists []. apply emits_refl.
  - rewrite resizeObserverCallback_cons.
    destruct (targetIsDocumentElement entry); [|apply IH].
    destruct (autoDetectAndApply_total w s) as [s1 Hs1]. rewrite Hs1.
    intros H. destruct (IH _ H) as [events2 H2].
    destruct (emits_autoDetect w s s1 Hs1) as (events1 & H1 & _).
    exists (events1 ++ events2). by eapply emits_trans.
Qed.

Lemma emits_step op s s' :
  step op s = Normal s' → ∃ events, emits s s' events.
Proof.
  destruct op; cbn [step].
  - intros [= <-]. destruct (emits_enable s) as (? & ? & _); eauto.
  - intros [= <-]. destruct (emits_disable s) as (? & ? & _); eauto.
  - intros [= <-]. unfold toggleCompactMode. cbn zeta.
    destruct (isCompactMode _).
    + destruct (emits_disable (with_isManualMode true s)) as (? & ? & _).
      eauto using emits_manual.
    + destruct (emits_enable (with_isManualMode true s)) as (? & ? & _).
      eauto using emits_manual.
  - intros [= <-]. exists [].
    destruct (setCompactModeLevel_effect level s) as (_ & _ & _ & _ & _ & Hd).
    destruct (setCompactModeLevel_flags level s) as (Hc & _ & Hcfg).
    unfold emits. rewrite Hd, Hc, Hcfg, app_nil_r. by repeat split.
  - intros H. destruct (emits_autoDetect w s s' H) as (? & ? & _); eauto.
  - unfold handleMediaQueryChange. destruct (negb _).
    + intros H. destruct (emits_autoDetect w s s' H) as (? & ? & _); eauto.
    + intros [= <-]. exists []. apply emits_refl.
  - apply emits_resize.
  - intros [= <-]. destruct (destroy_unfold s) as (s1 & Hv & ->).
    destruct (emits_disable s1) as (? & ? & _). eauto using emits_same_view.
Qed.

Lemma emits_run ops s :
  ∃ s' events, run ops s = Normal s' ∧ emits s s' events.
Proof.
  revert s. induction ops as [|op ops IH]; intros s.
  - exists s, []. split; [done|apply emits_refl].
  - rewrite run_cons. destruct (step_total op s) as [s1 Hs1]. rewrite Hs1.
    destruct (emits_step op s s1 Hs1) as [events1 H1].
    destruct (IH s1) as (s' & events2 & Hrun & H2).
    exists s', (events1 ++ events2). split; [done|by eapply emits_trans].
Qed.

(** ** Repeated width evaluation *)

Lemma autoDetectAndApply_settles w s s1 :
  autoDetectAndApply (Some w) s = Normal s1 →
  autoDetectAndApply (Some w) s1 = Normal s1.
Proof.
  unfold autoDetectAndApply at 1.
  destruct (negb _ || _) eqn:Hg; [by intros [= <-]; unfold autoDetectAndApply; rewrite Hg|].
  destruct (PrimFloat.leb _ _) eqn:Hl, (isCompactMode (this s)) eqn:Hc;
    cbn [andb negb]; intros [= <-].
  - unfold autoDetectAndApply. by rewrite Hg, Hl, Hc.
  - destruct (enableCompactMode_flags s) as (Hc' & Hm' & Hcfg').
    unfold autoDetectAndApply. by rewrite Hc', Hm', Hcfg', Hg, Hl.
  - destruct (disableCompactMode_flags s) as (Hc' & Hm' & Hcfg').
    unfold autoDetectAndApply. by rewrite Hc', Hm', Hcfg', Hg, Hl.
  - unfold autoDetectAndApply. by rewrite Hg, Hl, Hc.
Qed.

Lemma resizeObserverCallback_settled w entries s :
  autoDetectAndApply (Some w) s = Normal s →
  resizeObserverCallback (Some w) entries s = Normal s.
Proof.
  intros Hs. induction entries as [|entry entries IH]; [done|].
  rewrite resizeObserverCallback_cons.
  destruct (targetIsDocumentElement entry); [by rewrite Hs|done].
Qed.

Lemma resizeObserverCallback_once w entries s :
  resizeObserverCallback (Some w) entries s =
  if existsb targetIsDocumentElement entries
  then autoDetectAndApply (Some w) s
  else Normal s.
Proof.
  induction entries as [|entry entries IH]; [done|].
  rewrite resizeObserverCallback_cons. cbn [existsb].
  destruct (targetIsDocumentElement entry); cbn [orb]; [|exact IH].
  destruct (autoDetectAndApply_total w s) as [s1 Hs1]. rewrite Hs1.
  cbn. apply resizeObserverCallback_settled.
  by eapply autoDetectAndApply_settles.
Qed.

(** X1: a width evaluation settles at once.  Running [autoDetectAndApply]
    again at the same width returns the state it is given, and a resize
    notification does what one [autoDetectAndApply] does if some entry
    targets the root element, and nothing otherwise, however many entries it
    carries. *)
Theorem width_evaluation_settles (w : Window) (s : State)
    (entries : list ResizeObserverEntry) :
  ∃ s1, autoDetectAndApply (Some w) s = Normal s1 ∧
        autoDetectAndApply (Some w) s1 = Normal s1 ∧
        resizeObserverCallback (Some w) entries s =
          Normal (if existsb targetIsDocumentElement entries then s1 else s).
Proof.
  destruct (autoDetectAndApply_total w s) as [s1 Hs1]. exists s1.
  split; [done|]. split; [by eapply autoDetectAndApply_settles|].
  rewrite resizeObserverCallback_once, Hs1. by destruct (existsb _ _).
Qed.

(** ** The events of an operation and of a run *)

Lemma emits_at_most_one s s' events :
  emits s s' events → length events ≤ 1 →
  events = if bool_decide (isCompactMode (this s') = isCompactMode (this s))
           then [] else [announcement s'].
Proof.
  intros (_ & Hcfg & Ha & Hl & Hf) Hlen.
  destruct events as [|d [|? ?]]; [| |cbn in Hlen; lia].
  - cbn in Hl. rewrite bool_decide_eq_true_2; done.
  - cbn in Ha, Hl. apply Forall_inv in Hf.
    rewrite !andb_true_r in Ha. apply andb_prop in Ha as [Hn Hact].
    apply bool_decide_eq_true in Hn.
    rewrite bool_decide_eq_false_2
      by (rewrite <- Hl, Hn; by destruct (isCompactMode (this s))).
    unfold announcement. rewrite Hcfg, <- Hl, <- Hf.
    destruct d as [[] [] sf]; cbn in *; done.
Qed.

Lemma emits_step_one op s s' :
  step op s = Normal s' → ∃ events, emits s s' events ∧ length events ≤ 1.
Proof.
  destruct op; cbn [step].
  - intros [= <-]. apply emits_enable.
  - intros [= <-]. apply emits_disable.
  - intros [= <-]. unfold toggleCompactMode. cbn zeta.
    destruct (isCompactMode _).
    + destruct (emits_disable (with_isManualMode true s)) as (? & ? & ?).
      eauto using emits_manual.
    + destruct (emits_enable (with_isManualMode true s)) as (? & ? & ?).
      eauto using emits_manual.
  - intros [= <-]. exists [].
    destruct (setCompactModeLevel_effect level s) as (_ & _ & _ & _ & _ & Hd).
    destruct (setCompactModeLevel_flags level s) as (Hc & _ & Hcfg).
    split; [|cbn; lia]. unfold emits. rewrite Hd, Hc, Hcfg, app_nil_r.
    by repeat split.
  - apply emits_autoDetect.
  - unfold handleMediaQueryChange. destruct (negb _).
    + apply emits_autoDetect.
    + intros [= <-]. exists []. split; [apply emits_refl|cbn; lia].
  - rewrite resizeObserverCallback_once. destruct (existsb _ _).
    + apply emits_autoDetect.
    + intros [= <-]. exists []. split; [apply emits_refl|cbn; lia].
  - intros [= <-]. destruct (destroy_unfold s) as (s1 & Hv & ->).
    destruct (emits_disable s1) as (? & ? & ?). eauto using emits_same_view.
Qed.

(** X2: an operation dispatches an event exactly when it changes
    [isCompactMode], and then exactly one: [enabled] with [isCompact] set or
    [disabled] with it clear, carrying [config.scaleFactor]. *)
Theorem operation_dispatches (op : Op) (s : State) :
  ∃ s', step op s = Normal s' ∧
        dispatched (page s') =
          dispatched (page s) ++
          if bool_decide (isCompactMode (this s') = isCompactMode (this s))
          then [] else [announcement s'].
Proof.
  destruct (step_total op s) as [s' Hs']. exists s'. split; [done|].
  destruct (emits_step_one op s s' Hs') as (events & He & Hlen).
  rewrite <- (emits_at_most_one s s' events He Hlen). apply He.
Qed.

(** X3: over any run the dispatched events alternate between [enabled] and
    [disabled], each carrying the state it announces, the first one negating
    the state the run started in; the state carried by the last one is the
    controller's [isCompactMode]. *)
Theorem run_dispatches_alternating (ops : list Op) (s : State) :
  ∃ s' events,
    run ops s = Normal s' ∧
    dispatched (page s') = dispatched (page s) ++ events ∧
    alternates (isCompactMode (this s)) events = true ∧
    last_isCompact (isCompactMode (this s)) events = isCompactMode (this s').
Proof.
  destruct (emits_run ops s) as (s' & events & Hrun & Hd & _ & Ha & Hl & _).
  by exists s', events.
Qed.

(** ** The hook *)

Lemma deliver_fields h events :
  hook_compactMode (deliver h events) = hook_compactMode h ∧
  hook_isCompactMode (deliver h events) =
    last_isCompact (hook_isCompactMode h) events ∧
  hook_isManualMode (deliver h events) = hook_isManualMode h.
Proof.
  revert h. induction events as [|d events IH]; intros h; [done|].
  unfold deliver, last_isCompact in *. cbn [foldl].
  destruct (IH (handleCompactModeChange d h)) as (-> & -> & ->). done.
Qed.

Lemma deliver_scaleFactor h events c :
  hook_scaleFactor h = c →
  Forall (λ d, detail_scaleFactor d = c) events →
  hook_scaleFactor (deliver h events) = c.
Proof.
  revert h. induction events as [|d events IH]; intros h Hh Hf; [done|].
  unfold deliver in *. cbn [foldl]. apply Forall_cons in Hf as [Hd Hf].
  by apply IH.
Qed.

Lemma run_app ops1 ops2 s :
  run (ops1 ++ ops2) s = (s1 ← run ops1 s; run ops2 s1).
Proof.
  revert s. induction ops1 as [|op ops1 IH]; intros s; [done|].
  cbn [app]. rewrite !run_cons.
  destruct (step op s) as [s1|e]; [apply IH|done].
Qed.

Lemma run_config ops s s' :
  run ops s = Normal s' → config (this s') = config (this s).
Proof.
  intros Hrun. destruct (emits_run ops s) as (s1 & ? & Hrun1 & _ & Hc & _).
  congruence.
Qed.

Lemma run_manual ops s s' :
  isManualMode (this s) = true → run ops s = Normal s' →
  isManualMode (this s') = true.
Proof.
  revert s. induction ops as [|op ops IH]; intros s Hm; [by intros [= <-]|].
  rewrite run_cons. destruct (step_total op s) as [s1 Hs1]. rewrite Hs1.
  apply IH. by eapply step_manual.
Qed.

(** X4: a hook mounted on a controller follows it.  After any run of
    operations, with the dispatched events delivered to the hook's listener,
    the hook's [isCompactMode] is the controller's and its [scaleFactor] is
    [config.scaleFactor]; its [isManualMode] is the value read when it
    mounted. *)
Theorem hook_follows_controller (s : State) (ops : list Op) :
  let h := useEffect_mount (Some s) useState_initial in
  ∃ s' events,
    run ops s = Normal s' ∧
    dispatched (page s') = dispatched (page s) ++ events ∧
    hook_isCompactMode (deliver h events) = isCompactMode (this s') ∧
    hook_scaleFactor (deliver h events) = scaleFactor (config (this s')) ∧
    hook_isManualMode (deliver h events) = isManualMode (this s).
Proof.
  cbn zeta.
  destruct (emits_run ops s) as (s' & events & Hrun & Hd & Hc & _ & Hl & Hf).
  exists s', events. split; [done|]. split; [done|].
  destruct (deliver_fields (useEffect_mount (Some s) useState_initial) events)
    as (_ & -> & ->).
  split; [exact Hl|]. split; [|done].
  rewrite Hc. by apply deliver_scaleFactor.
Qed.

(** X5: the hook never learns that the controller went manual.  If the hook
    mounts on a controller in auto mode and a later run contains a toggle or
    a level change, the controller ends in manual mode while the hook still
    reports [isManualMode] false. *)
Theorem hook_isManualMode_is_stale (s : State) (ops1 ops2 : list Op) (op : Op) :
  isManualMode (this s) = false →
  op = ToggleCompactMode ∨ (∃ level, op = SetCompactModeLevel level) →
  let h := useEffect_mount (Some s) useState_initial in
  ∃ s' events,
    run (ops1 ++ op :: ops2) s = Normal s' ∧
    dispatched (page s') = dispatched (page s) ++ events ∧
    isManualMode (this s') = true ∧
    hook_isManualMode (deliver h events) = false.
Proof.
  intros Hm Hop. cbn zeta.
  destruct (emits_run (ops1 ++ op :: ops2) s)
    as (s' & events & Hrun & Hd & _).
  exists s', events. split; [done|]. split; [done|]. split.
  - rewrite run_app in Hrun.
    destruct (run_total ops1 s) as [s1 Hs1]. rewrite Hs1 in Hrun.
    cbn [mbind completion_bind] in Hrun. rewrite run_cons in Hrun.
    destruct (step_total op s1) as [s2 Hs2]. rewrite Hs2 in Hrun.
    cbn [mbind completion_bind] in Hrun.
    eapply run_manual; [|exact Hrun].
    destruct Hop as [->|[level ->]]; cbn [step] in Hs2;
      injection Hs2 as <-.
    + apply toggleCompactMode_flags.
    + apply setCompactModeLevel_flags.
  - by destruct (deliver_fields (useEffect_mount (Some s) useState_initial)
                   events) as (_ & _ & ->).
Qed.

Lemma hook_isManualMode_is_stale_witness :
  let h := useEffect_mount (Some onPhone) useState_initial in
  ∃ s' events,
    run ([DisableCompactMode] ++ ToggleCompactMode :: [Resize desktop [mkEntry true]])
        onPhone = Normal s' ∧
    dispatched (page s') = dispatched (page onPhone) ++ events ∧
    isManualMode (this s') = true ∧
    hook_isManualMode (deliver h events) = false.
Proof.
  apply (hook_isManualMode_is_stale onPhone [DisableCompactMode]
           [Resize desktop [mkEntry true]] ToggleCompactMode).
  - vm_compute. reflexivity.
  - left. reflexivity.
Defined.

(** ** Construction *)

Lemma autoDetectAndApply_compact w s s' :
  autoDetectAndApply (Some w) s = Normal s' →
  isManualMode (this s) = false →
  isCompactMode (this s') =
    if autoEnable (config (this s))
    then PrimFloat.leb (innerWidth w) (breakpoint (config (this s)))
    else isCompactMode (this s).
Proof.
  intros H Hm. unfold autoDetectAndApply in H. rewrite Hm, orb_false_r in H.
  destruct (autoEnable _); cbn [negb] in H; [|by injection H as <-].
  destruct (PrimFloat.leb _ _), (isCompactMode (this s)) eqn:Hc;
    cbn [andb negb] in H; injection H as <-;
    rewrite ?Hc; try done.
  - apply enableCompactMode_flags.
  - apply disableCompactMode_flags.
Qed.

Lemma autoDetectAndApply_flags w s s' :
  autoDetectAndApply (Some w) s = Normal s' →
  isManualMode (this s') = isManualMode (this s) ∧
  config (this s') = config (this s).
Proof.
  destruct (autoDetectAndApply_cases w s) as [->|[->| ->]]; intros [= <-].
  - done.
  - by destruct (enableCompactMode_flags s) as (_ & -> & ->).
  - by destruct (disableCompactMode_flags s) as (_ & -> & ->).
Qed.

Lemma bookkeeping_eq s s' :
  bookkeeping s' = bookkeeping s →
  mediaQuery (this s') = mediaQuery (this s) ∧
  resizeObserver (this s') = resizeObserver (this s) ∧
  documentListeners (page s') = documentListeners (page s) ∧
  functionsCreated (page s') = functionsCreated (page s).
Proof. unfold bookkeeping. by intros [= -> -> -> ->]. Qed.

(** The state the constructor reaches before it evaluates the width. *)
Lemma setup_bookkeeping w s :
  let s' := setupPassiveListeners (Some w)
              (setupResizeObserver (Some w) (setupMediaQuery (Some w) s)) in
  let fn := functionsCreated (page s) in
  mediaQuery (this s') =
    Some (mkMediaQueryList (breakpoint (config (this s))) [fn]) ∧
  resizeObserver (this s') =
    (if hasResizeObserver w then Some (mkResizeObserver true)
     else resizeObserver (this s)) ∧
  documentListeners (page s') =
    documentListeners (page s) ++
    (if enablePassiveListeners (config (this s))
     then touchListeners (S fn) else []) ∧
  fn < functionsCreated (page s').
Proof.
  destruct_state s.
  unfold setupPassiveListeners, setupResizeObserver, setupMediaQuery.
  cbn -[addTouchActionToElements bookkeeping].
  destruct (hasResizeObserver w);
    cbn -[addTouchActionToElements bookkeeping];
    (destruct (enablePassiveListeners cfg);
     cbn -[addTouchActionToElements bookkeeping];
     [|rewrite app_nil_r; repeat split; lia]).
  all: match goal with
       | |- context [addTouchActionToElements ?x] =>
           destruct (bookkeeping_eq _ _ (addTouchActionToElements_bookkeeping x))
             as (-> & -> & -> & ->)
       end.
  all: cbn; rewrite <- !app_assoc; repeat split; lia.
Qed.

Lemma constructor_in_browser_lemma w cfg p :
  ∃ s, new_CompactMobileMode (Some w) cfg p = Normal s ∧
       config (this s) = spread defaultConfig cfg ∧
       mediaQuery (this s) =
         Some (mkMediaQueryList (breakpoint (spread defaultConfig cfg))
                 [functionsCreated p]) ∧
       functionsCreated p < functionsCreated (page s).
Proof.
  unfold new_CompactMobileMode, init.
  set (s0 := mkState _ p).
  destruct (setup_view w s0) as (Hcfg & _).
  destruct (setup_bookkeeping w s0) as (Hmq & _ & _ & Hfn).
  cbn zeta in Hcfg, Hmq, Hfn.
  set (s1 := setupPassiveListeners _ _) in *.
  destruct (autoDetectAndApply_total w s1) as [s Hs]. exists s.
  split; [done|].
  destruct (bookkeeping_eq _ _ (autoDetectAndApply_bookkeeping w s1 s Hs))
    as (-> & _ & _ & ->).
  destruct (autoDetectAndApply_flags w s1 s Hs) as (_ & ->).
  by rewrite Hcfg, Hmq.
Qed.

Lemma init_in_browser w c p :
  ∃ s, init (Some w) (mkState (mkController c false false None None) p) =
         Normal s ∧
       config (this s) = c ∧
       isManualMode (this s) = false ∧
       isCompactMode (this s) =
         autoEnable c && PrimFloat.leb (innerWidth w) (breakpoint c) ∧
       mediaQuery (this s) =
         Some (mkMediaQueryList (breakpoint c) [functionsCreated p]) ∧
       resizeObserver (this s) =
         (if hasResizeObserver w then Some (mkResizeObserver true) else None) ∧
       documentListeners (page s) =
         documentListeners p ++
         (if enablePassiveListeners c
          then touchListeners (S (functionsCreated p)) else []) ∧
       dispatched (page s) =
         dispatched p ++
         (if isCompactMode (this s)
          then [mkDetail enabled true (scaleFactor c)] else []).
Proof.
  unfold init.
  set (s0 := mkState _ p).
  destruct (setup_view w s0) as (Hcfg & Hcm & Hmm & _ & _ & Hdi).
  destruct (setup_bookkeeping w s0) as (Hmq & Hro & Hls & _).
  cbn zeta in Hcfg, Hcm, Hmm, Hdi, Hmq, Hro, Hls.
  set (s1 := setupPassiveListeners _ _) in *.
  destruct (autoDetectAndApply_total w s1) as [s Hs]. exists s.
  split; [done|].
  pose proof (autoDetectAndApply_bookkeeping w s1 s Hs) as Hb.
  pose proof (autoDetectAndApply_compact w s1 s Hs Hmm) as Hc.
  destruct (emits_autoDetect w s1 s Hs) as (events & He & Hlen).
  pose proof (emits_at_most_one s1 s events He Hlen) as Hev.
  destruct He as (Hd & Hc' & _).
  apply bookkeeping_eq in Hb as (Hb1 & Hb2 & Hb3 & Hb4).
  rewrite Hc', Hcfg, Hb1, Hb2, Hb3, Hmq, Hro, Hls, Hd, Hdi.
  rewrite Hcfg, Hcm in Hc. rewrite Hc.
  destruct (autoDetectAndApply_flags w s1 s Hs) as (Hm' & _).
  rewrite Hm', Hmm.
  assert (Hif : ∀ a b : bool, (if a then b else false) = a && b)
    by by intros [] [].
  rewrite Hif. repeat split. f_equal.
  rewrite Hev, Hcm, Hc, Hif.
  destruct (autoEnable _), (PrimFloat.leb _ _) eqn:Hl; try done.
  cbn. unfold announcement. rewrite Hc', Hcfg, Hc.
  done.
Qed.

(** X6: what [new CompactMobileMode(config)] builds in a browser, for an
    argument none of whose keys holds [undefined], so that the defaults
    overridden by it are a configuration [c] of the declared type.  The
    constructor returns; the configuration is [c]; the controller starts in
    auto mode and is compact exactly if [autoEnable] is set and the window
    is no wider than the breakpoint, in which case one [enabled] event has
    been dispatched; the media query has one change listener, the resize
    observer exists if the browser has one, and the four passive touch
    listeners are registered if the configuration asks for them. *)
Theorem constructor_in_browser (w : Window) (o : ConfigObject) (p : Page)
    (c : CompactModeConfig) :
  declared (spread_object defaultConfig o) = Some c →
  ∃ s, new_CompactMobileMode_object (Some w) o p = Returns s ∧
       config (this s) = c ∧
       isManualMode (this s) = false ∧
       isCompactMode (this s) =
         autoEnable c && PrimFloat.leb (innerWidth w) (breakpoint c) ∧
       mediaQuery (this s) =
         Some (mkMediaQueryList (breakpoint c) [functionsCreated p]) ∧
       resizeObserver (this s) =
         (if hasResizeObserver w then Some (mkResizeObserver true) else None) ∧
       documentListeners (page s) =
         documentListeners p ++
         (if enablePassiveListeners c
          then touchListeners (S (functionsCreated p)) else []) ∧
       dispatched (page s) =
         dispatched p ++
         (if isCompactMode (this s)
          then [mkDetail enabled true (scaleFactor c)] else []).
Proof.
  intros Hd.
  destruct (new_CompactMobileMode_object_declared w o p c Hd) as (s & Hs & Hn).
  destruct (init_in_browser w c p) as (s' & Hs' & H).
  rewrite Hs in Hs'. injection Hs' as <-. by exists s.
Qed.

Lemma constructor_in_browser_witness :
  let o := mkObject KeyAbsent (KeyValue 600%float) KeyAbsent KeyAbsent
             (KeyValue false) in
  let c := mkConfig true 600%float 0.857%float 40%float false in
  ∃ s, new_CompactMobileMode_object (Some phone) o emptyPage = Returns s ∧
       config (this s) = c ∧
       isManualMode (this s) = false ∧
       isCompactMode (this s) =
         autoEnable c && PrimFloat.leb (innerWidth phone) (breakpoint c) ∧
       mediaQuery (this s) =
         Some (mkMediaQueryList (breakpoint c) [functionsCreated emptyPage]) ∧
       resizeObserver (this s) =
         (if hasResizeObserver phone
          then Some (mkResizeObserver true) else None) ∧
       documentListeners (page s) =
         documentListeners emptyPage ++
         (if enablePassiveListeners c
          then touchListeners (S (functionsCreated emptyPage)) else []) ∧
       dispatched (page s) =
         dispatched emptyPage ++
         (if isCompactMode (this s)
          then [mkDetail enabled true (scaleFactor c)] else []).
Proof.
  apply (constructor_in_browser phone
           (mkObject KeyAbsent (KeyValue 600%float) KeyAbsent KeyAbsent
              (KeyValue false))
           emptyPage
           (mkConfig true 600%float 0.857%float 40%float false)).
  reflexivity.
Defined.

(** X7: [new CompactMobileMode(config)] where there is no [window].  With
    [autoEnable] set, as it is by default, the constructor throws a
    [ReferenceError]; with [autoEnable] off it returns a controller and has
    set up no listener and left the page alone. *)
Theorem constructor_without_window (cfg : PartialConfig) (p : Page) :
  let c := spread defaultConfig cfg in
  new_CompactMobileMode None cfg p =
    if autoEnable c then Throw (ReferenceError "window")
    else Normal (mkState (mkController c false false None None) p).
Proof.
  cbn zeta. unfold new_CompactMobileMode, init, setupPassiveListeners.
  cbn [setupMediaQuery setupResizeObserver undefined].
  rewrite orb_true_r. unfold autoDetectAndApply. cbn [this config isManualMode].
  rewrite orb_false_r. by destruct (autoEnable _).
Qed.

(** ** Teardown and the listeners *)

Lemma step_bookkeeping op s s' :
  op ≠ Destroy → step op s = Normal s' → bookkeeping s' = bookkeeping s.
Proof.
  intros Hop. destruct op; cbn [step]; try done.
  - intros [= <-]. apply enableCompactMode_bookkeeping.
  - intros [= <-]. apply disableCompactMode_bookkeeping.
  - intros [= <-]. apply toggleCompactMode_bookkeeping.
  - intros [= <-]. apply setCompactModeLevel_bookkeeping.
  - apply autoDetectAndApply_bookkeeping.
  - unfold handleMediaQueryChange. destruct (negb _).
    + apply autoDetectAndApply_bookkeeping.
    + by intros [= <-].
  - apply resizeObserverCallback_bookkeeping.
Qed.

(** [destroy] passes a function made on the spot to [removeEventListener],
    which therefore finds nothing to remove. *)
Lemma destroy_bookkeeping s w f :
  mediaQuery (this s) = Some (mkMediaQueryList w [f]) →
  f < functionsCreated (page s) →
  mediaQuery (this (destroy s)) = mediaQuery (this s) ∧
  resizeObserver (this (destroy s)) =
    (λ _, mkResizeObserver false) <$> resizeObserver (this s) ∧
  documentListeners (page (destroy s)) = documentListeners (page s) ∧
  functionsCreated (page (destroy s)) = S (functionsCreated (page s)).
Proof.
  intros Hmq Hf. unfold destroy. cbn zeta.
  set (s1 := match resizeObserver _ with Some _ => _ | None => _ end).
  destruct (bookkeeping_eq _ _ (disableCompactMode_bookkeeping s1))
    as (-> & -> & -> & ->).
  unfold s1. destruct_state s. cbn in Hmq, Hf. subst mq.
  cbn. rewrite decide_True by lia. by destruct ro.
Qed.

Lemma one_listener_step op s s' :
  one_listener s → step op s = Normal s' → one_listener s'.
Proof.
  intros (f & Hmq & Hf) Hstep.
  destruct (emits_step op s s' Hstep) as (? & _ & Hcfg & _).
  assert (Hdec : op = Destroy ∨ op ≠ Destroy) by (destruct op; auto).
  destruct Hdec as [->|Hop].
  - cbn [step] in Hstep. injection Hstep as <-.
    destruct (destroy_bookkeeping s _ f Hmq Hf) as (H1 & _ & _ & H4).
    exists f. rewrite H1, H4, Hcfg. split; [done|lia].
  - destruct (bookkeeping_eq _ _ (step_bookkeeping op s s' Hop Hstep))
      as (H1 & _ & _ & H4).
    exists f. by rewrite H1, H4, Hcfg.
Qed.

Lemma reachable_one_listener s : reachable s → one_listener s.
Proof.
  induction 1 as [w cfg p s Hf Hn|op s s' _ IH Hstep].
  - destruct (constructor_in_browser_lemma w cfg p)
      as (s1 & Hs1 & Hcfg & Hmq & Hfn).
    rewrite Hn in Hs1. injection Hs1 as <-.
    exists (functionsCreated p). by rewrite Hcfg.
  - by eapply one_listener_step.
Qed.

(** X8: [destroy()] does not detach the media-query listener.  In every
    reachable state the controller's media query carries one change
    listener; after [destroy()] the media query and its listener are exactly
    as before, and so are the touch listeners of the document.  Only the
    resize observer is disconnected. *)
Theorem destroy_leaves_listener (s : State) :
  reachable s →
  ∃ f, mediaQuery (this s) =
         Some (mkMediaQueryList (breakpoint (config (this s))) [f]) ∧
       mediaQuery (this (destroy s)) = mediaQuery (this s) ∧
       documentListeners (page (destroy s)) = documentListeners (page s) ∧
       resizeObserver (this (destroy s)) =
         (λ _, mkResizeObserver false) <$> resizeObserver (this s).
Proof.
  intros (f & Hmq & Hf)%reachable_one_listener. exists f.
  destruct (destroy_bookkeeping s _ f Hmq Hf) as (H1 & H2 & H3 & _).
  by rewrite H1, H2, H3.
Qed.

Lemma destroy_leaves_listener_witness :
  ∃ f, mediaQuery (this onPhone) =
         Some (mkMediaQueryList (breakpoint (config (this onPhone))) [f]) ∧
       mediaQuery (this (destroy onPhone)) = mediaQuery (this onPhone) ∧
       documentListeners (page (destroy onPhone)) =
         documentListeners (page onPhone) ∧
       resizeObserver (this (destroy onPhone)) =
         (λ _, mkResizeObserver false) <$> resizeObserver (this onPhone).
Proof.
  apply (destroy_leaves_listener onPhone).
  apply (reachable_new phone noConfig emptyPage onPhone).
  - vm_compute. repeat split; reflexivity.
  - vm_compute. reflexivity.
Defined.

(** X9: a destroyed controller still follows the width.  If the controller
    was in auto mode, a media-query change after [destroy()] evaluates the
    width as before: at a width within the breakpoint the controller is
    compact again, the compact class and the scale factor are back on the
    root, and an [enabled] event is dispatched. *)
Theorem width_evaluation_after_destroy (w : Window) (s : State) :
  autoEnable (config (this s)) = true →
  isManualMode (this s) = false →
  ∃ s', handleMediaQueryChange (Some w) (destroy s) = Normal s' ∧
        isCompactMode (this s') =
          PrimFloat.leb (innerWidth w) (breakpoint (config (this s))) ∧
        (isCompactMode (this s') = true →
         contains compactClass (root s') = true ∧
         getPropertyValue scaleFactorProperty (root s') =
           Some (NumberString (scaleFactor (config (this s)))) ∧
         dispatched (page s') =
           dispatched (page (destroy s)) ++
           [mkDetail enabled true (scaleFactor (config (this s)))]).
Proof.
  intros Ha Hm. destruct (destroy_flags s) as (Hc' & Hm' & Hcfg').
  unfold handleMediaQueryChange, autoDetectAndApply.
  rewrite Hm', Hm, Hcfg', Ha, Hc'. cbn [negb orb andb].
  rewrite andb_true_r, andb_false_r.
  destruct (PrimFloat.leb _ _).
  - exists (enableCompactMode (destroy s)). split; [done|].
    destruct (enableCompactMode_flags (destroy s)) as (-> & _).
    split; [done|]. intros _.
    destruct (enableCompactMode_effect (destroy s) Hc')
      as (Hcl & Hs & _ & _ & Hd).
    cbn zeta in Hcl, Hs, Hd. rewrite Hs, Hd, Hcfg'.
    unfold contains. rewrite bool_decide_eq_true, Hcl.
    repeat split. set_solver.
  - exists (destroy s). by rewrite Hc'.
Qed.

Lemma width_evaluation_after_destroy_witness :
  ∃ s', handleMediaQueryChange (Some phone) (destroy onPhone) = Normal s' ∧
        isCompactMode (this s') =
          PrimFloat.leb (innerWidth phone) (breakpoint (config (this onPhone))) ∧
        (isCompactMode (this s') = true →
         contains compactClass (root s') = true ∧
         getPropertyValue scaleFactorProperty (root s') =
           Some (NumberString (scaleFactor (config (this onPhone)))) ∧
         dispatched (page s') =
           dispatched (page (destroy onPhone)) ++
           [mkDetail enabled true (scaleFactor (config (this onPhone)))]).
Proof.
  apply (width_evaluation_after_destroy phone onPhone);
    vm_compute; reflexivity.
Defined.

(** ** [updateConfig] *)

Lemma updateConfig_effect window cfg s :
  let s' := updateConfig window cfg s in
  let c := spread (config (this s)) cfg in
  config (this s') = c ∧
  isCompactMode (this s') = isCompactMode (this s) ∧
  isManualMode (this s') = isManualMode (this s) ∧
  classList (root s') = classList (root s) ∧
  dispatched (page s') = dispatched (page s) ∧
  (isCompactMode (this s) = true →
   getPropertyValue scaleFactorProperty (root s') =
     Some (NumberString (scaleFactor c)) ∧
   getPropertyValue fontBaseProperty (root s') = Some (Px 12%float) ∧
   getPropertyValue touchMinSizeProperty (root s') =
     Some (Px (touchMinSize c))) ∧
  (isCompactMode (this s) = false → root s' = root s).
Proof.
  destruct_state s.
  unfold updateConfig, removeMediaQueryListener, setupMediaQuery.
  destruct mq as [[? ?]|], window, cm; cbn; unfold getPropertyValue; cbn;
    repeat split; try done; by simplify_map_eq.
Qed.

(** With no [undefined] stored, [updateConfig] acts on the state as it
    does for the argument that holds every key of the result. *)
Lemma updateConfig_object_declared window o s c :
  declared (spread_object (config (this s)) o) = Some c →
  updateConfig_object window o s =
  Returns (updateConfig window
             (mkPartial (Some (autoEnable c)) (Some (breakpoint c))
                (Some (scaleFactor c)) (Some (touchMinSize c))
                (Some (enablePassiveListeners c))) s) ∧
  spread (config (this s))
    (mkPartial (Some (autoEnable c)) (Some (breakpoint c))
       (Some (scaleFactor c)) (Some (touchMinSize c))
       (Some (enablePassiveListeners c))) = c.
Proof.
  intros Hd. unfold updateConfig_object, updateConfig. cbn zeta.
  rewrite Hd. by destruct c.
Qed.

(** X10: [updateConfig], for an argument none of whose keys holds
    [undefined], so that the old configuration overridden by it is a
    configuration [c] of the declared type.  The call returns, with [c] as
    the configuration, and touches nothing else of the compact state:
    [isCompactMode], [isManualMode] and the root's classes stay, no event is
    dispatched, and the width is not evaluated again.  If the controller is
    compact the three custom properties are published afresh from the new
    configuration; if it is not, the root element is left as it is. *)
Theorem updateConfig_republishes (window : option Window)
    (o : ConfigObject) (s : State) (c : CompactModeConfig) :
  declared (spread_object (config (this s)) o) = Some c →
  ∃ s', updateConfig_object window o s = Returns s' ∧
        config (this s') = c ∧
        isCompactMode (this s') = isCompactMode (this s) ∧
        isManualMode (this s') = isManualMode (this s) ∧
        classList (root s') = classList (root s) ∧
        dispatched (page s') = dispatched (page s) ∧
        (if isCompactMode (this s)
         then getPropertyValue scaleFactorProperty (root s') =
                Some (NumberString (scaleFactor c)) ∧
              getPropertyValue fontBaseProperty (root s') =
                Some (Px 12%float) ∧
              getPropertyValue touchMinSizeProperty (root s') =
                Some (Px (touchMinSize c))
         else root s' = root s).
Proof.
  intros Hd.
  destruct (updateConfig_object_declared window o s c Hd) as (-> & Hc).
  eexists. split; [reflexivity|].
  destruct (updateConfig_effect window
              (mkPartial (Some (autoEnable c)) (Some (breakpoint c))
                 (Some (scaleFactor c)) (Some (touchMinSize c))
                 (Some (enablePassiveListeners c))) s)
    as (H1 & H2 & H3 & H4 & H5 & H6 & H7).
  cbn zeta in H1, H6. rewrite Hc in H1, H6.
  do 5 (split; [done|]).
  destruct (isCompactMode (this s)); auto.
Qed.

Lemma updateConfig_republishes_witness :
  let o := mkObject KeyAbsent KeyAbsent (KeyValue 0.9%float) KeyAbsent
             KeyAbsent in
  let c := mkConfig true 480%float 0.9%float 40%float true in
  ∃ s', updateConfig_object (Some phone) o onPhone = Returns s' ∧
        config (this s') = c ∧
        isCompactMode (this s') = isCompactMode (this onPhone) ∧
        isManualMode (this s') = isManualMode (this onPhone) ∧
        classList (root s') = classList (root onPhone) ∧
        dispatched (page s') = dispatched (page onPhone) ∧
        (if isCompactMode (this onPhone)
         then getPropertyValue scaleFactorProperty (root s') =
                Some (NumberString (scaleFactor c)) ∧
              getPropertyValue fontBaseProperty (root s') =
                Some (Px 12%float) ∧
              getPropertyValue touchMinSizeProperty (root s') =
                Some (Px (touchMinSize c))
         else root s' = root onPhone).
Proof.
  apply (updateConfig_republishes (Some phone)
           (mkObject KeyAbsent KeyAbsent (KeyValue 0.9%float) KeyAbsent
              KeyAbsent)
           onPhone
           (mkConfig true 480%float 0.9%float 40%float true)).
  reflexivity.
Defined.

(** X11: [updateConfig] undoes the smaller level half way.  On a compact
    controller, [setCompactModeLevel("smaller")] followed by an
    [updateConfig] whose argument holds no [undefined], an empty one
    included, leaves the [compact-mode-smaller] class on the root while the
    published scale factor and base font are back to [config.scaleFactor]
    and [12px]. *)
Theorem updateConfig_drops_smaller_values (window : option Window)
    (o : ConfigObject) (s : State) (c : CompactModeConfig) :
  isCompactMode (this s) = true →
  declared (spread_object (config (this s)) o) = Some c →
  ∃ s', updateConfig_object window o (setCompactModeLevel smaller s) =
          Returns s' ∧
        contains smallerClass (root s') = true ∧
        getPropertyValue scaleFactorProperty (root s') =
          Some (NumberString (scaleFactor c)) ∧
        getPropertyValue fontBaseProperty (root s') = Some (Px 12%float).
Proof.
  intros Hc Hd.
  destruct (setCompactModeLevel_flags smaller s) as (Hc1 & _ & Hcfg1).
  destruct (setCompactModeLevel_effect smaller s) as (_ & Hsm & _).
  rewrite <- Hcfg1 in Hd.
  destruct (updateConfig_object_declared window o _ c Hd) as (-> & Hs).
  eexists. split; [reflexivity|].
  destruct (updateConfig_effect window
              (mkPartial (Some (autoEnable c)) (Some (breakpoint c))
                 (Some (scaleFactor c)) (Some (touchMinSize c))
                 (Some (enablePassiveListeners c)))
              (setCompactModeLevel smaller s))
    as (_ & _ & _ & Hcl & _ & Hp & _).
  cbn zeta in Hp. rewrite Hs, Hc1 in Hp. destruct (Hp Hc) as (-> & -> & _).
  unfold contains. rewrite bool_decide_eq_true, Hcl, Hsm. done.
Qed.

Lemma updateConfig_drops_smaller_values_witness :
  ∃ s', updateConfig_object (Some phone) noObject
          (setCompactModeLevel smaller onPhone) = Returns s' ∧
        contains smallerClass (root s') = true ∧
        getPropertyValue scaleFactorProperty (root s') =
          Some (NumberString (scaleFactor defaultConfig)) ∧
        getPropertyValue fontBaseProperty (root s') = Some (Px 12%float).
Proof.
  apply (updateConfig_drops_smaller_values (Some phone) noObject onPhone
           defaultConfig);
    reflexivity.
Defined.

(** ** Enabling, disabling and the level *)

(** X12: enabling and then disabling a controller that was not compact
    leaves it not compact, with the two marker classes and the three custom
    properties off the root and exactly two events dispatched, [enabled]
    then [disabled]; on a root that carried neither class the class list is
    what it was. *)
Theorem enable_then_disable (s : State) :
  isCompactMode (this s) = false →
  let s' := disableCompactMode (enableCompactMode s) in
  isCompactMode (this s') = false ∧
  classList (root s') = classList (root s) ∖ {[ compactClass; smallerClass ]} ∧
  (contains compactClass (root s) = false →
   contains smallerClass (root s) = false →
   classList (root s') = classList (root s)) ∧
  getPropertyValue scaleFactorProperty (root s') = None ∧
  getPropertyValue fontBaseProperty (root s') = None ∧
  getPropertyValue touchMinSizeProperty (root s') = None ∧
  dispatched (page s') =
    dispatched (page s) ++
    [ mkDetail enabled true (scaleFactor (config (this s)));
      mkDetail disabled false (scaleFactor (config (this s))) ].
Proof.
  intros Hc. cbn zeta.
  destruct (enableCompactMode_flags s) as (Hc1 & _ & Hcfg1).
  destruct (enableCompactMode_effect s Hc) as (Hcl1 & _ & _ & _ & Hd1).
  destruct (disableCompactMode_effect (enableCompactMode s) Hc1)
    as (Hcl2 & -> & -> & -> & Hd2).
  destruct (disableCompactMode_flags (enableCompactMode s)) as (-> & _).
  cbn zeta in *. rewrite Hd2, Hd1, Hcfg1, <- app_assoc, Hcl2, Hcl1.
  unfold contains. rewrite !bool_decide_eq_false. clear.
  split; [done|].
  assert (He : ∀ X : gset string,
             ({[compactClass]} ∪ X) ∖ {[compactClass; smallerClass]} =
             X ∖ {[compactClass; smallerClass]}).
  { intros X. apply set_eq. intros x.
    rewrite !elem_of_difference, !elem_of_union, !elem_of_singleton. tauto. }
  rewrite He. split; [done|]. split; [|done].
  intros H1 H2. apply set_eq. intros x.
  rewrite elem_of_difference, elem_of_union, !elem_of_singleton.
  split; [tauto|]. intros Hx. split; [done|]. intros [->| ->]; tauto.
Qed.

Lemma enable_then_disable_witness :
  let s' := disableCompactMode (enableCompactMode idle) in
  isCompactMode (this s') = false ∧
  classList (root s') = classList (root idle) ∖ {[ compactClass; smallerClass ]} ∧
  (contains compactClass (root idle) = false →
   contains smallerClass (root idle) = false →
   classList (root s') = classList (root idle)) ∧
  getPropertyValue scaleFactorProperty (root s') = None ∧
  getPropertyValue fontBaseProperty (root s') = None ∧
  getPropertyValue touchMinSizeProperty (root s') = None ∧
  dispatched (page s') =
    dispatched (page idle) ++
    [ mkDetail enabled true (scaleFactor (config (this idle)));
      mkDetail disabled false (scaleFactor (config (this idle))) ].
Proof. apply (enable_then_disable idle). reflexivity. Defined.

Lemma setCompactModeLevel_smaller_classList s :
  classList (root (setCompactModeLevel smaller s)) =
  {[ smallerClass ]} ∪ classList (root s).
Proof. destruct_state s. reflexivity. Qed.

(** X13: the level and enabling do not commute.  On a controller that is
    not compact, setting the smaller level and then enabling ends with the
    [compact-mode-smaller] class on the root but the normal values published
    ([config.scaleFactor], [12px]); enabling first and then setting the level
    ends with the same classes and the smaller values ([0.8], [11px]). *)
Theorem level_and_enable_do_not_commute (s : State) :
  isCompactMode (this s) = false →
  let a := enableCompactMode (setCompactModeLevel smaller s) in
  let b := setCompactModeLevel smaller (enableCompactMode s) in
  classList (root a) = classList (root b) ∧
  smallerClass ∈ classList (root a) ∧ compactClass ∈ classList (root a) ∧
  getPropertyValue scaleFactorProperty (root a) =
    Some (NumberString (scaleFactor (config (this s)))) ∧
  getPropertyValue fontBaseProperty (root a) = Some (Px 12%float) ∧
  getPropertyValue scaleFactorProperty (root b) =
    Some (NumberString 0.8%float) ∧
  getPropertyValue fontBaseProperty (root b) = Some (Px 11%float).
Proof.
  intros Hc. cbn zeta.
  destruct (setCompactModeLevel_flags smaller s) as (Hc1 & _ & Hcfg1).
  rewrite <- Hc1 in Hc.
  destruct (enableCompactMode_effect _ Hc) as (Hcl & -> & -> & _).
  rewrite Hcfg1.
  destruct (setCompactModeLevel_effect smaller (enableCompactMode s))
    as (_ & _ & -> & -> & _).
  rewrite Hcl. rewrite Hc1 in Hc.
  destruct (enableCompactMode_effect s Hc) as (Hcl' & _).
  pose proof (setCompactModeLevel_smaller_classList (enableCompactMode s)) as Hb.
  pose proof (setCompactModeLevel_smaller_classList s) as Ha.
  cbn zeta in Hcl'. rewrite Hb, Hcl', Ha. clear.
  split; [apply set_eq; intros x; rewrite !elem_of_union; tauto|].
  rewrite !elem_of_union, !elem_of_singleton. by repeat split; auto.
Qed.

Lemma level_and_enable_do_not_commute_witness :
  let a := enableCompactMode (setCompactModeLevel smaller idle) in
  let b := setCompactModeLevel smaller (enableCompactMode idle) in
  classList (root a) = classList (root b) ∧
  smallerClass ∈ classList (root a) ∧ compactClass ∈ classList (root a) ∧
  getPropertyValue scaleFactorProperty (root a) =
    Some (NumberString (scaleFactor (config (this idle)))) ∧
  getPropertyValue fontBaseProperty (root a) = Some (Px 12%float) ∧
  getPropertyValue scaleFactorProperty (root b) =
    Some (NumberString 0.8%float) ∧
  getPropertyValue fontBaseProperty (root b) = Some (Px 11%float).
Proof. apply (level_and_enable_do_not_commute idle). reflexivity. Defined.

(** X14: the smaller level does not survive a disable.  On a compact
    controller, after [setCompactModeLevel("smaller")], disabling and
    enabling again gives a compact controller at the normal level: the
    [compact-mode-smaller] class is gone and [config.scaleFactor] and [12px]
    are published. *)
Theorem level_is_lost_on_disable (s : State) :
  isCompactMode (this s) = true →
  let s' := enableCompactMode
              (disableCompactMode (setCompactModeLevel smaller s)) in
  isCompactMode (this s') = true ∧
  compactClass ∈ classList (root s') ∧
  contains smallerClass (root s') = false ∧
  getPropertyValue scaleFactorProperty (root s') =
    Some (NumberString (scaleFactor (config (this s)))) ∧
  getPropertyValue fontBaseProperty (root s') = Some (Px 12%float).
Proof.
  intros Hc. cbn zeta.
  destruct (setCompactModeLevel_flags smaller s) as (Hc1 & _ & Hcfg1).
  rewrite <- Hc1 in Hc.
  destruct (disableCompactMode_flags (setCompactModeLevel smaller s))
    as (Hc2 & _ & Hcfg2).
  destruct (disableCompactMode_effect _ Hc) as (Hcl2 & _).
  destruct (enableCompactMode_effect _ Hc2) as (Hcl3 & -> & -> & _).
  destruct (enableCompactMode_flags
              (disableCompactMode (setCompactModeLevel smaller s)))
    as (-> & _).
  cbn zeta in *. unfold contains.
  rewrite bool_decide_eq_false, Hcl3, Hcl2, Hcfg2, Hcfg1. clear.
  split; [done|].
  rewrite !elem_of_union, !elem_of_difference, !elem_of_union,
    !elem_of_singleton.
  split; [by left|]. split; [|done].
  intros [[=]|[_ Hn]]. apply Hn. by right.
Qed.

Lemma level_is_lost_on_disable_witness :
  let s' := enableCompactMode
              (disableCompactMode (setCompactModeLevel smaller onPhone)) in
  isCompactMode (this s') = true ∧
  compactClass ∈ classList (root s') ∧
  contains smallerClass (root s') = false ∧
  getPropertyValue scaleFactorProperty (root s') =
    Some (NumberString (scaleFactor (config (this onPhone)))) ∧
  getPropertyValue fontBaseProperty (root s') = Some (Px 12%float).
Proof.
  apply (level_is_lost_on_disable onPhone). vm_compute. reflexivity.
Defined.

(** ** Auto detection switched off *)

Section AutoDisabled.

Variable s : State.
Hypothesis disabled : autoEnable (config (this s)) = false.

Lemma autoDetectAndApply_disabled window : autoDetectAndApply window s = Normal s.
Proof. unfold autoDetectAndApply. by rewrite disabled. Qed.

Lemma handleMediaQueryChange_disabled window :
  handleMediaQueryChange window s = Normal s.
Proof.
  unfold handleMediaQueryChange.
  destruct (negb _); [apply autoDetectAndApply_disabled|done].
Qed.

Lemma resizeObserverCallback_disabled window entries :
  resizeObserverCallback window entries s = Normal s.
Proof.
  induction entries as [|entry entries IH]; [done|].
  rewrite resizeObserverCallback_cons.
  destruct (targetIsDocumentElement entry);
    rewrite ?autoDetectAndApply_disabled; apply IH.
Qed.

End AutoDisabled.

(** X15: with [autoEnable] off the width never matters.  From a state whose
    configuration has [autoEnable] false, every run returns, and afterwards
    [autoDetectAndApply], the media-query listener and the resize observer
    return the state they are given, also where no [window] exists. *)
Theorem auto_detection_off (s : State) (ops : list Op) :
  autoEnable (config (this s)) = false →
  ∃ s', run ops s = Normal s' ∧
        autoEnable (config (this s')) = false ∧
        ∀ window entries,
          autoDetectAndApply window s' = Normal s' ∧
          handleMediaQueryChange window s' = Normal s' ∧
          resizeObserverCallback window entries s' = Normal s'.
Proof.
  intros Ha. destruct (run_total ops s) as [s' Hrun]. exists s'.
  assert (Ha' : autoEnable (config (this s')) = false)
    by by rewrite (run_config ops s s' Hrun).
  split; [done|]. split; [done|]. intros window entries.
  auto using autoDetectAndApply_disabled, handleMediaQueryChange_disabled,
    resizeObserverCallback_disabled.
Qed.

Lemma auto_detection_off_witness :
  let s := updateConfig (Some phone)
             (mkPartial (Some false) None None None None) onDesktop in
  ∃ s', run [Resize phone [mkEntry true]; MediaQueryChange phone] s = Normal s' ∧
        autoEnable (config (this s')) = false ∧
        ∀ window entries,
          autoDetectAndApply window s' = Normal s' ∧
          handleMediaQueryChange window s' = Normal s' ∧
          resizeObserverCallback window entries s' = Normal s'.
Proof.
  apply (auto_detection_off
           (updateConfig (Some phone)
              (mkPartial (Some false) None None None None) onDesktop)).
  vm_compute. reflexivity.
Defined.

(** ** The singleton *)

Lemma init_flags w c p s :
  init (Some w) (mkState (mkController c false false None None) p) = Normal s →
  config (this s) = c ∧ isManualMode (this s) = false.
Proof.
  unfold init. set (s0 := mkState _ p).
  destruct (setup_view w s0) as (Hcfg & _ & Hmm & _).
  cbn zeta in Hcfg, Hmm. intros Hs.
  destruct (autoDetectAndApply_flags w _ s Hs) as (-> & ->).
  by rewrite Hcfg, Hmm.
Qed.

(** X16: the first successful [initCompactMobileMode] decides.  Called
    in a browser with no instance yet and an argument none of whose keys
    holds [undefined], it makes the instance from the defaults overridden by
    that argument; every later call, whatever its argument and whatever the
    window then is, returns that same instance and changes nothing. *)
Theorem init_keeps_first_instance (w w' : Window) (o o' : ConfigObject)
    (p : Page) (c0 : CompactModeConfig) :
  declared (spread_object defaultConfig o) = Some c0 →
  ∃ c m, initCompactMobileMode (Some w) o (mkModule None p) = InitReturns c m ∧
         config c = c0 ∧
         getCompactMobileMode m = Some c ∧
         initCompactMobileMode (Some w') o' m = InitReturns c m.
Proof.
  intros Hd. unfold initCompactMobileMode.
  cbn [undefined compactMobileMode m_page].
  destruct (new_CompactMobileMode_object_declared w o p c0 Hd)
    as (s & Hs & ->).
  exists (this s), (mkModule (Some (this s)) (page s)).
  split; [done|]. split; [|done].
  by destruct (init_flags w c0 p s Hs).
Qed.

Lemma init_keeps_first_instance_witness :
  let o' := mkObject KeyAbsent KeyAbsent KeyUndefined KeyAbsent KeyAbsent in
  ∃ c m, initCompactMobileMode (Some phone) noObject (mkModule None emptyPage) =
           InitReturns c m ∧
         config c = defaultConfig ∧
         getCompactMobileMode m = Some c ∧
         initCompactMobileMode (Some desktop) o' m = InitReturns c m.
Proof.
  apply (init_keeps_first_instance phone desktop noObject
           (mkObject KeyAbsent KeyAbsent KeyUndefined KeyAbsent KeyAbsent)
           emptyPage defaultConfig).
  reflexivity.
Defined.

(** X17: destroying the singleton leads back to auto mode.
    [destroyCompactMobileMode] unsets the instance (a second call changes
    nothing), and the next [initCompactMobileMode] in a browser, with an
    argument none of whose keys holds [undefined], builds a new controller
    from the defaults and that argument, in auto mode, whatever the
    destroyed one had been configured with or switched to. *)
Theorem destroy_then_init (m : ModuleState) (w : Window) (o : ConfigObject)
    (c0 : CompactModeConfig) :
  declared (spread_object defaultConfig o) = Some c0 →
  let m1 := destroyCompactMobileMode m in
  getCompactMobileMode m1 = None ∧
  destroyCompactMobileMode m1 = m1 ∧
  ∃ c m2, initCompactMobileMode (Some w) o m1 = InitReturns c m2 ∧
          getCompactMobileMode m2 = Some c ∧
          isManualMode c = false ∧
          config c = c0.
Proof.
  intros Hd. cbn zeta.
  assert (Hn : compactMobileMode (destroyCompactMobileMode m) = None).
  { unfold destroyCompactMobileMode. by destruct (compactMobileMode m) eqn:H. }
  split; [done|]. split.
  { unfold destroyCompactMobileMode at 1. by rewrite Hn. }
  unfold initCompactMobileMode. cbn [undefined]. rewrite Hn.
  destruct (new_CompactMobileMode_object_declared w o
              (m_page (destroyCompactMobileMode m)) c0 Hd) as (s & Hs & ->).
  exists (this s), (mkModule (Some (this s)) (page s)).
  destruct (init_flags w c0 _ s Hs). by repeat split.
Qed.

Lemma destroy_then_init_witness :
  let m := mkModule (Some (this (toggleCompactMode onPhone)))
             (page (toggleCompactMode onPhone)) in
  let m1 := destroyCompactMobileMode m in
  getCompactMobileMode m1 = None ∧
  destroyCompactMobileMode m1 = m1 ∧
  ∃ c m2, initCompactMobileMode (Some phone) noObject m1 = InitReturns c m2 ∧
          getCompactMobileMode m2 = Some c ∧
          isManualMode c = false ∧
          config c = defaultConfig.
Proof.
  apply (destroy_then_init
           (mkModule (Some (this (toggleCompactMode onPhone)))
              (page (toggleCompactMode onPhone)))
           phone noObject defaultConfig).
  reflexivity.
Defined.

(** ** Touch styling *)

Lemma matches_setProperty sel k v e :
  matches sel (setProperty k v e) = matches sel e.
Proof. destruct e. by destruct sel. Qed.

Lemma setProperty_twice k v e :
  setProperty k v (setProperty k v e) = setProperty k v e.
Proof. destruct e. cbn. f_equal. apply insert_insert_eq. Qed.

Lemma foldl_setTouchAction_element sels e :
  foldl (λ e sel, setTouchAction sel e) e sels =
  if existsb (λ sel, matches sel e) sels
  then setProperty "touch-action" (Keyword "manipulation") e
  else e.
Proof.
  assert (Hm : ∀ sels e,
    foldl (λ e sel, setTouchAction sel e)
      (setProperty "touch-action" (Keyword "manipulation") e) sels =
    setProperty "touch-action" (Keyword "manipulation") e).
  { clear. induction sels as [|sel sels IH]; intros e; [done|].
    cbn [foldl]. unfold setTouchAction at 2. rewrite matches_setProperty.
    destruct (matches sel e); [rewrite setProperty_twice|]; apply IH. }
  revert e. induction sels as [|sel sels IH]; intros e; [done|].
  cbn [foldl existsb]. unfold setTouchAction at 2.
  destruct (matches sel e); cbn [orb]; [apply Hm|apply IH].
Qed.

Lemma on_all_ext f g s : (∀ e, f e = g e) → on_all f s = on_all g s.
Proof.
  intros H. destruct_state s. cbn. rewrite H. do 2 f_equal.
  apply list_fmap_ext. auto.
Qed.

Lemma foldl_on_all (f : Selector → Element → Element) sels s :
  foldl (λ s sel, on_all (f sel) s) s sels =
  on_all (λ e, foldl (λ e sel, f sel e) e sels) s.
Proof.
  revert s. induction sels as [|sel sels IH]; intros s.
  - destruct_state s. cbn. by rewrite list_fmap_id.
  - cbn [foldl]. rewrite IH. destruct_state s. cbn.
    by rewrite <- list_fmap_compose.
Qed.

Lemma addTouchActionToElements_touched s :
  addTouchActionToElements s = on_all touched s.
Proof.
  unfold addTouchActionToElements. rewrite foldl_on_all.
  apply on_all_ext. intros e. apply foldl_setTouchAction_element.
Qed.

Lemma existsb_matches_setProperty sels k v e :
  existsb (λ sel, matches sel (setProperty k v e)) sels =
  existsb (λ sel, matches sel e) sels.
Proof.
  induction sels as [|sel sels IH]; [done|].
  cbn [existsb]. by rewrite matches_setProperty, IH.
Qed.

Lemma touched_twice e : touched (touched e) = touched e.
Proof.
  unfold touched.
  destruct (existsb (λ sel, matches sel e) interactiveSelectors) eqn:H;
    [|by rewrite H].
  rewrite existsb_matches_setProperty, H. apply setProperty_twice.
Qed.

(** X18: [addTouchActionToElements] sets [touch-action: manipulation] on
    exactly the elements of the document, the root included, that one of its
    ten selectors matches, and changes nothing else: no other style, no
    class, no controller field, no listener, no event.  Doing it again
    changes nothing. *)
Theorem addTouchActionToElements_marks (s : State) :
  let s' := addTouchActionToElements s in
  documentElement (page s') = touched (documentElement (page s)) ∧
  descendants (page s') = touched <$> descendants (page s) ∧
  this s' = this s ∧
  documentListeners (page s') = documentListeners (page s) ∧
  dispatched (page s') = dispatched (page s) ∧
  addTouchActionToElements s' = s'.
Proof.
  cbn zeta. rewrite !addTouchActionToElements_touched.
  destruct_state s. cbn. repeat split.
  rewrite touched_twice. do 2 f_equal.
  rewrite <- list_fmap_compose. apply list_fmap_ext.
  intros ? e _. apply touched_twice.
Qed.

(** X19: touch feedback and touch styling single out almost the same
    elements.  [isInteractiveElement] holds of an element exactly if one of
    the selectors of [addTouchActionToElements] matches it or its role is
    [link] or [option]. *)
Theorem isInteractiveElement_selectors (e : Element) :
  isInteractiveElement e =
  existsb (λ sel, matches sel e) interactiveSelectors ||
  includes ["link"; "option"] (default "" (role e)).
Proof.
  destruct e as [tag rl cl st].
  unfold isInteractiveElement, includes, interactiveTags, interactiveRoles.
  cbn [existsb interactiveSelectors matches tagName role DOM.tagName DOM.role].
  unfold contains. rewrite ?orb_false_r. apply eq_true_iff_eq.
  rewrite !orb_true_iff, !bool_decide_eq_true.
  rewrite !elem_of_cons, !elem_of_nil.
  destruct rl as [r|]; cbn [default from_option id]; split; intros H;
    repeat match goal with
           | H : _ ∨ _ |- _ => destruct H as [H|H]
           | H : Some _ = Some _ |- _ => injection H as H
           | H : None = Some _ |- _ => discriminate H
           | H : False |- _ => destruct H
           | H : "" = _ |- _ => discriminate H
           | H : false = true |- _ => discriminate H
           end; subst; auto 20.
Qed.

(** ** The view *)

(** X20: what the toggle view shows of the level.  For a hook mounted on a
    controller in auto mode, after any run of operations the level buttons
    are hidden in every variant; and whatever the mode, the tests that
    highlight the two buttons compare [config.scaleFactor] with [0.857] and
    [0.8], so the highlight does not depend on the level that was set. *)
Theorem view_ignores_level (s : State) (ops : list Op) (variant : Variant) :
  let h := useEffect_mount (Some s) useState_initial in
  ∃ s' events,
    run ops s = Normal s' ∧
    dispatched (page s') = dispatched (page s) ++ events ∧
    let st := hook_status (deliver h events) in
    normalHighlighted st =
      PrimFloat.eqb (scaleFactor (config (this s))) 0.857%float ∧
    smallerHighlighted st =
      PrimFloat.eqb (scaleFactor (config (this s))) 0.8%float ∧
    (isManualMode (this s) = false →
     levelButtonsShown variant (deliver h events) = false).
Proof.
  cbn zeta.
  destruct (emits_run ops s) as (s' & events & Hrun & Hd & Hc & _ & _ & Hf).
  exists s', events. split; [done|]. split; [done|].
  set (h := useEffect_mount (Some s) useState_initial).
  assert (Hs : hook_scaleFactor (deliver h events) = scaleFactor (config (this s)))
    by by apply deliver_scaleFactor.
  destruct (deliver_fields h events) as (_ & _ & Hm).
  unfold normalHighlighted, smallerHighlighted, hook_status.
  cbn [status_scaleFactor]. rewrite Hs. split; [done|]. split; [done|].
  intros Hman. unfold levelButtonsShown. rewrite Hm. cbn. rewrite Hman.
  by destruct variant.
Qed.

Lemma view_ignores_level_witness :
  let h := useEffect_mount (Some onPhone) useState_initial in
  ∃ s' events,
    run [SetCompactModeLevel smaller] onPhone = Normal s' ∧
    dispatched (page s') = dispatched (page onPhone) ++ events ∧
    let st := hook_status (deliver h events) in
    normalHighlighted st =
      PrimFloat.eqb (scaleFactor (config (this onPhone))) 0.857%float ∧
    smallerHighlighted st =
      PrimFloat.eqb (scaleFactor (config (this onPhone))) 0.8%float ∧
    (isManualMode (this onPhone) = false →
     levelButtonsShown switch (deliver h events) = false).
Proof.
  apply (view_ignores_level onPhone [SetCompactModeLevel smaller] switch).
Defined.

(** X21: a hook that mounts before the singleton exists stays detached.  Its
    effect found no controller and does not run again, so whatever events
    arrive later its callbacks leave every controller alone; its
    [isCompactMode] nevertheless follows the events. *)
Theorem hook_without_controller (events : list CompactModeChange)
    (f : State → State) (s : State) :
  let h := deliver (useEffect_mount None useState_initial) events in
  hook_compactMode h = false ∧
  hook_call f h s = s ∧
  hook_isCompactMode h = last_isCompact false events ∧
  hook_isManualMode h = false.
Proof.
  cbn zeta. unfold hook_call.
  by destruct (deliver_fields (useEffect_mount None useState_initial) events)
    as (-> & -> & ->).
Qed.

(** ** Mobile optimization utilities *)

(** X22: [getTouchTargetSize] where there is no window is [44]; in a window
    no wider than 480 it is [52] whatever else holds; and on a device whose
    window has [ontouchstart] or whose user agent is a mobile one it is never
    [44]. *)
Theorem getTouchTargetSize_cases (window : option Device) :
  (window = None → getTouchTargetSize window = 44%float) ∧
  (isSmallScreen window = true → getTouchTargetSize window = 52%float) ∧
  (∀ d, window = Some d →
        hasOnTouchStart d = true ∨ userAgentIsMobile d = true →
        PrimFloat.eqb (getTouchTargetSize window) 44%float = false).
Proof.
  split; [by intros ->|]. split.
  - intros H. unfold getTouchTargetSize. by rewrite H.
  - intros d -> Hd. unfold getTouchTargetSize.
    destruct (isSmallScreen _); [done|].
    assert (Hm : isMobile (Some d) = true).
    { cbn. destruct Hd as [-> | ->]; by rewrite ?orb_true_r. }
    by rewrite Hm.
Qed.

Lemma getTouchTargetSize_cases_witness :
  let window := Some (mkDevice 1024%float 768%float false true) in
  (window = None → getTouchTargetSize window = 44%float) ∧
  (isSmallScreen window = true → getTouchTargetSize window = 52%float) ∧
  (∀ d, window = Some d →
        hasOnTouchStart d = true ∨ userAgentIsMobile d = true →
        PrimFloat.eqb (getTouchTargetSize window) 44%float = false).
Proof.
  apply (getTouchTargetSize_cases
           (Some (mkDevice 1024%float 768%float false true))).
Defined.

(** X23: positioning a modal or a dropdown is repeatable.  Both functions
    leave a missing element and, off mobile, any element alone; on mobile
    they only write style properties (classes, tag and role stay), and
    applying either a second time gives what the first application gave, so
    the repeated calls made on every viewport change do not accumulate. *)
Theorem positioning_is_idempotent (window : option Device)
    (e : option Element) :
  optimizeModalPosition window None = None ∧
  optimizeDropdownPosition window None = None ∧
  (isMobile window = false →
   optimizeModalPosition window e = e ∧ optimizeDropdownPosition window e = e) ∧
  optimizeModalPosition window (optimizeModalPosition window e) =
    optimizeModalPosition window e ∧
  optimizeDropdownPosition window (optimizeDropdownPosition window e) =
    optimizeDropdownPosition window e ∧
  (classList <$> optimizeModalPosition window e = classList <$> e) ∧
  (classList <$> optimizeDropdownPosition window e = classList <$> e).
Proof.
  split; [done|]. split; [done|]. split.
  { intros Hm. unfold optimizeModalPosition, optimizeDropdownPosition.
    rewrite Hm. by destruct e. }
  unfold optimizeModalPosition, optimizeDropdownPosition.
  destruct e as [[tag rl cl st]|]; [|done].
  destruct (isMobile window) eqn:Hm; cbn; rewrite ?Hm; [|done].
  repeat split; do 2 f_equal; apply map_eq; intros k;
    rewrite !lookup_insert; repeat case_decide; congruence.
Qed.

Lemma positioning_is_idempotent_witness :
  let window := Some (mkDevice 1024%float 768%float false false) in
  let e := Some (mkElement "div" (Some "dialog") ∅ ∅) in
  optimizeModalPosition window None = None ∧
  optimizeDropdownPosition window None = None ∧
  (isMobile window = false →
   optimizeModalPosition window e = e ∧ optimizeDropdownPosition window e = e) ∧
  optimizeModalPosition window (optimizeModalPosition window e) =
    optimizeModalPosition window e ∧
  optimizeDropdownPosition window (optimizeDropdownPosition window e) =
    optimizeDropdownPosition window e ∧
  (classList <$> optimizeModalPosition window e = classList <$> e) ∧
  (classList <$> optimizeDropdownPosition window e = classList <$> e).
Proof.
  apply (positioning_is_idempotent
           (Some (mkDevice 1024%float 768%float false false))
           (Some (mkElement "div" (Some "dialog") ∅ ∅))).
Defined.

(** ** The published properties *)

Lemma coherent_ext s1 s2 : same_view s1 s2 → coherent s1 → coherent s2.
Proof.
  intros (Hcfg & Hc & Hm & Hr & _). unfold coherent, publishes.
  by rewrite Hcfg, Hc, Hm, Hr.
Qed.

Lemma coherent_enable s : coherent s → coherent (enableCompactMode s).
Proof.
  intros H. destruct (isCompactMode (this s)) eqn:Hc;
    [by rewrite enableCompactMode_noop|].
  destruct (enableCompactMode_effect s Hc) as (_ & Hs & Hf & Ht & _).
  destruct (enableCompactMode_flags s) as (_ & _ & Hcfg).
  right. left. unfold publishes. by rewrite Hcfg.
Qed.

Lemma coherent_disable s : coherent s → coherent (disableCompactMode s).
Proof.
  intros H. destruct (isCompactMode (this s)) eqn:Hc;
    [|by rewrite disableCompactMode_noop].
  destruct (disableCompactMode_effect s Hc) as (_ & Hs & Hf & Ht & _).
  destruct (disableCompactMode_flags s) as (Hc' & _).
  by left.
Qed.

Lemma coherent_manual s : coherent s → coherent (with_isManualMode true s).
Proof.
  unfold coherent, publishes. destruct_state s. cbn. intuition.
Qed.

Lemma coherent_setLevel level s : coherent (setCompactModeLevel level s).
Proof.
  destruct (setCompactModeLevel_effect level s) as (_ & Hsm & Hs & Hf & Ht & _).
  destruct (setCompactModeLevel_flags level s) as (_ & Hm & Hcfg).
  right. unfold publishes. rewrite Hcfg.
  destruct level; [by left|right]. by rewrite Hsm.
Qed.

Lemma coherent_autoDetect w s s' :
  coherent s → autoDetectAndApply (Some w) s = Normal s' → coherent s'.
Proof.
  intros H.
  destruct (autoDetectAndApply_cases w s) as [->|[->| ->]]; intros [= <-];
    auto using coherent_enable, coherent_disable.
Qed.

Lemma coherent_step op s s' :
  coherent s → step op s = Normal s' → coherent s'.
Proof.
  intros H. destruct op; cbn [step].
  - intros [= <-]. by apply coherent_enable.
  - intros [= <-]. by apply coherent_disable.
  - intros [= <-]. unfold toggleCompactMode. cbn zeta.
    destruct (isCompactMode _);
      auto using coherent_enable, coherent_disable, coherent_manual.
  - intros [= <-]. apply coherent_setLevel.
  - by apply coherent_autoDetect.
  - unfold handleMediaQueryChange. destruct (negb _).
    + by apply coherent_autoDetect.
    + by intros [= <-].
  - rewrite resizeObserverCallback_once. destruct (existsb _ _).
    + by apply coherent_autoDetect.
    + by intros [= <-].
  - intros [= <-]. destruct (destroy_unfold s) as (s1 & Hv & ->).
    apply coherent_disable. by eapply coherent_ext.
Qed.

Lemma coherent_new w cfg p s :
  fresh p → new_CompactMobileMode (Some w) cfg p = Normal s → coherent s.
Proof.
  intros (_ & _ & Hsf & Hfb & Htm & _). unfold new_CompactMobileMode, init.
  apply coherent_autoDetect.
  destruct (setup_view w
    (mkState (mkController (spread defaultConfig cfg) false false None None) p))
    as (_ & Hcm & _ & _ & Hk & _).
  left. rewrite Hcm, !Hk by done. done.
Qed.

(** X24: the three custom properties always go together.  In every
    reachable state either the controller is not compact and none of them is
    on the root, or all three are there holding the normal level
    ([config.scaleFactor], [12px], the configured touch size), or all three
    hold the smaller level ([0.8], [11px], the configured touch size), in
    which case the [compact-mode-smaller] class is on the root and the
    controller is in manual mode. *)
Theorem published_properties_coherent (s : State) :
  reachable s →
  (isCompactMode (this s) = false ∧
   getPropertyValue scaleFactorProperty (root s) = None ∧
   getPropertyValue fontBaseProperty (root s) = None ∧
   getPropertyValue touchMinSizeProperty (root s) = None) ∨
  publishes s (scaleFactor (config (this s))) 12%float ∨
  (publishes s 0.8%float 11%float ∧
   contains smallerClass (root s) = true ∧ isManualMode (this s) = true).
Proof.
  intros Hr.
  assert (H : coherent s).
  { induction Hr as [w cfg p s Hf Hn|op s s' _ IH Hstep].
    - by eapply coherent_new.
    - by eapply coherent_step. }
  unfold contains. rewrite bool_decide_eq_true. exact H.
Qed.

Lemma published_properties_coherent_witness :
  (isCompactMode (this onDesktop) = false ∧
   getPropertyValue scaleFactorProperty (root onDesktop) = None ∧
   getPropertyValue fontBaseProperty (root onDesktop) = None ∧
   getPropertyValue touchMinSizeProperty (root onDesktop) = None) ∨
  publishes onDesktop (scaleFactor (config (this onDesktop))) 12%float ∨
  (publishes onDesktop 0.8%float 11%float ∧
   contains smallerClass (root onDesktop) = true ∧
   isManualMode (this onDesktop) = true).
Proof.
  apply (published_properties_coherent onDesktop).
  apply (reachable_new desktop noConfig emptyPage onDesktop).
  - vm_compute. repeat split; reflexivity.
  - vm_compute. reflexivity.
Defined.
